(** * Library_Management: the persistence layer of lib6.py

    A shallow embedding of class [Database] (src/lib6.py, lines 13-248),
    of the session logic of [LibraryApp], and the properties of their
    operations.

    Modelling conventions.
    - The four SQLite tables are lists of typed rows kept in rowid order.
      Every table is declared [INTEGER PRIMARY KEY AUTOINCREMENT], so a new
      row receives a rowid larger than any the table ever held and is
      appended; a scan without ORDER BY walks the list front to back.
    - A text is a [string] whose characters are the code points up to
      U+00FF, one [ascii] each; in UTF-8 a character below U+0080 takes one
      byte and any other two.  TEXT columns hold texts as they are given.
    - INTEGER columns are [Z].  A Python int that does not fit in 64 bits
      cannot be bound to a statement: [execute] raises OverflowError
      ([in_int64]).  A stored [available_count] above [INT64_MAX] stands
      for the REAL that SQLite stores once [available_count+1] has left the
      64-bit range; adding or subtracting 1 leaves such a value as it is.
      The ids held in a database file fit in 64 bits, and no table is taken
      to run out of rowids; a property that binds an id read from a row of
      an arbitrary [Store] says that the id fits.
    - [membership_expiry] is declared DATE, a column of NUMERIC affinity: a
      text that reads as a number is stored as that number ([sqlval]).
    - Python's [(ok, value)] result tuples are pairs [bool * pyval] carrying
      the literal messages of the source.  An operation that can let an
      exception escape returns an [outcome].
    - The connection is the only one; every operation below either commits
      what it wrote or wrote nothing, so a single [Store] value stands for
      both the connection's view and the committed file.
    - [datetime.date] values are proleptic Gregorian ordinals; the calendar
      formatting [isoformat] is a parameter of the development. *)

From Stdlib Require Import ZArith List String Ascii Bool Lia.
From Stdlib Require Import Permutation Sorted.
Import ListNotations.

Open Scope string_scope.
Open Scope list_scope.
Open Scope Z_scope.

(** ** Rows and store *)

Record User := mkUser {
  uid : Z;
  username : string;
  upassword : string;
  role : string
}.

Record Book := mkBook {
  bid : Z;
  title : string;
  author : string;
  genre : string;
  available_count : Z
}.

(** What a column of NUMERIC affinity holds in place of a text: the
    integer or the real (here [mantissa * 2 ^ exponent]) that the text reads
    as, or else the text itself. *)
Inductive sqlval :=
| SqlInteger (n : Z)
| SqlReal (mantissa exponent : Z)
| SqlText (s : string).

Record Member := mkMember {
  mid : Z;
  name : string;
  email : string;
  mpassword : string;
  membership_type : option string;
  membership_expiry : option sqlval
}.

Record Transaction := mkTransaction {
  tid : Z;
  user_id : Z;
  book_id : Z;
  issue_date : string;
  due_date : string;
  return_date : option string;
  returned : Z
}.

(** Each table comes with its [sqlite_sequence] entry: the largest rowid the
    table has ever held. *)
Record Store := mkStore {
  users : list User;
  users_seq : Z;
  books : list Book;
  books_seq : Z;
  members : list Member;
  members_seq : Z;
  transactions : list Transaction;
  transactions_seq : Z
}.

Definition set_users (s : Store) (us : list User) (q : Z) : Store :=
  mkStore us q (books s) (books_seq s) (members s) (members_seq s)
          (transactions s) (transactions_seq s).

Definition set_books (s : Store) (bs : list Book) (q : Z) : Store :=
  mkStore (users s) (users_seq s) bs q (members s) (members_seq s)
          (transactions s) (transactions_seq s).

Definition set_members (s : Store) (ms : list Member) (q : Z) : Store :=
  mkStore (users s) (users_seq s) (books s) (books_seq s) ms q
          (transactions s) (transactions_seq s).

Definition set_transactions (s : Store) (ts : list Transaction) (q : Z) : Store :=
  mkStore (users s) (users_seq s) (books s) (books_seq s)
          (members s) (members_seq s) ts q.

(** ** Python values and outcomes *)

Inductive pyval :=
| PyNone
| PyInt (n : Z)
| PyStr (s : string).

Definition result := (bool * pyval)%type.

Inductive exn :=
| IntegrityError
| OverflowError
| OperationalError.

Inductive outcome (A : Type) :=
| Returns (a : A)
| Raises (e : exn).
Arguments Returns {A} a.
Arguments Raises {A} e.

(** ** SQLite helpers *)

Definition INT64_MIN : Z := -9223372036854775808.
Definition INT64_MAX : Z := 9223372036854775807.

(** A Python int binds to a statement as an INTEGER when it fits in 64 bits;
    for any other, [execute] raises OverflowError before the statement
    runs. *)
Definition in_int64 (z : Z) : bool := (INT64_MIN <=? z) && (z <=? INT64_MAX).

(** SQL [available_count+1] and [available_count-1] on a stored count. *)
Definition sql_incr (c : Z) : Z := if INT64_MAX <? c then c else c + 1.

Definition sql_decr (c : Z) : Z := if INT64_MAX <? c then c else c - 1.

(** AUTOINCREMENT: one more than the largest rowid present or recorded. *)
Definition max_id {A : Type} (key : A -> Z) (rows : list A) : Z :=
  fold_right (fun r m => Z.max (key r) m) 0 rows.

Definition new_rowid {A : Type} (key : A -> Z) (seq : Z) (rows : list A) : Z :=
  Z.max seq (max_id key rows) + 1.

(** [SELECT COUNT( * ) ... WHERE p]. *)
Definition count_where {A : Type} (p : A -> bool) (rows : list A) : Z :=
  Z.of_nat (List.length (filter p rows)).

(** [CHECK(role IN ('admin','user'))]. *)
Definition role_check (r : string) : bool :=
  String.eqb r "admin" || String.eqb r "user".

(** [CHECK(membership_type IN ('regular','premium','student'))]; a NULL
    passes a CHECK constraint. *)
Definition membership_type_check (t : option string) : bool :=
  match t with
  | None => true
  | Some x => String.eqb x "regular" || String.eqb x "premium" || String.eqb x "student"
  end.

(** ASCII case folding, the only folding SQLite's LIKE does. *)
Definition tolower (c : ascii) : ascii :=
  let n := N_of_ascii c in
  if ((65 <=? n) && (n <=? 90))%N then ascii_of_N (n + 32) else c.

(** SQLite's [patternCompare] for LIKE with the default settings: [%]
    stands for any run of characters, [_] for exactly one, every other
    character for itself up to ASCII case; there is no escape character. *)
Fixpoint patternCompare (p t : string) {struct p} : bool :=
  match p with
  | EmptyString => match t with EmptyString => true | String _ _ => false end
  | String c p' =>
      if Ascii.eqb c "%"%char then
        (fix skip (t : string) : bool :=
           patternCompare p' t || match t with
                                  | EmptyString => false
                                  | String _ t' => skip t'
                                  end) t
      else if Ascii.eqb c "_"%char then
        match t with EmptyString => false | String _ t' => patternCompare p' t' end
      else
        match t with
        | EmptyString => false
        | String d t' => Ascii.eqb (tolower c) (tolower d) && patternCompare p' t'
        end
  end.

(** A text as the C code of SQLite reads it: up to its first NUL. *)
Fixpoint c_str (x : string) : string :=
  match x with
  | EmptyString => EmptyString
  | String c x' => if Ascii.eqb c "000"%char then EmptyString else String c (c_str x')
  end.

(** The number of bytes of a text in UTF-8. *)
Fixpoint utf8_length (x : string) : Z :=
  match x with
  | EmptyString => 0
  | String c x' => (if (N_of_ascii c <? 128)%N then 1 else 2) + utf8_length x'
  end.

Definition SQLITE_MAX_LIKE_PATTERN_LENGTH : Z := 50000.

(** [t LIKE p], SQLite's [likeFunc]: a pattern of more than 50000 bytes is
    refused with the OperationalError "LIKE or GLOB pattern too complex";
    otherwise pattern and text are compared as C strings. *)
Definition like (p t : string) : outcome bool :=
  if SQLITE_MAX_LIKE_PATTERN_LENGTH <? utf8_length p
  then Raises OperationalError
  else Returns (patternCompare (c_str p) (c_str t)).

(** [a OR b] in a WHERE clause: [b] is evaluated only when [a] is false. *)
Definition sql_or (a b : outcome bool) : outcome bool :=
  match a with
  | Raises e => Raises e
  | Returns true => Returns true
  | Returns false => b
  end.

(** [SELECT * FROM table WHERE p]: the rows are tested in table order and
    the first error ends the statement. *)
Fixpoint select_where {A : Type} (p : A -> outcome bool) (rows : list A)
    : outcome (list A) :=
  match rows with
  | [] => Returns []
  | r :: rest =>
      match p r with
      | Raises e => Raises e
      | Returns keep =>
          match select_where p rest with
          | Raises e => Raises e
          | Returns l => Returns (if keep then r :: l else l)
          end
      end
  end.

(** ** Users *)

Definition get_user_by_username (s : Store) (uname : string) : option User :=
  find (fun u => String.eqb (username u) uname) (users s).

Definition authenticate (s : Store) (uname pw : string) : option User :=
  find (fun u => String.eqb (username u) uname && String.eqb (upassword u) pw) (users s).

(** [INSERT INTO users (username,password,role)]: [None] is the
    [sqlite3.IntegrityError] of the UNIQUE or the CHECK constraint. *)
Definition insert_user (s : Store) (uname pw r : string) : option (Z * Store) :=
  if existsb (fun u => String.eqb (username u) uname) (users s) || negb (role_check r)
  then None
  else let i := new_rowid uid (users_seq s) (users s) in
       Some (i, set_users s (users s ++ [mkUser i uname pw r]) i).

Definition add_user (s : Store) (uname pw r : string) : result * Store :=
  match insert_user s uname pw r with
  | Some (i, s') => ((true, PyInt i), s')
  | None => ((false, PyStr "Username already exists"), s)
  end.

Definition ensure_admin (s : Store) : outcome Store :=
  match find (fun u => String.eqb (role u) "admin") (users s) with
  | Some _ => Returns s
  | None =>
      match insert_user s "admin" "admin" "admin" with
      | Some (_, s') => Returns s'
      | None => Raises IntegrityError
      end
  end.

(** ** Initialisation *)

Definition empty_store : Store := mkStore [] 0 [] 0 [] 0 [] 0.

(** [CREATE TABLE IF NOT EXISTS] four times: tables that are there keep
    their rows, a database without tables gets the four empty ones. *)
Definition create_tables (file : option Store) : Store :=
  match file with
  | Some s => s
  | None => empty_store
  end.

(** The two [ALTER TABLE ... ADD COLUMN] migrations add a column that rows
    of the current schema already have. *)
Definition migrate_schema (s : Store) : Store := s.

(** [Database.__init__]: [file] is what [path] holds, [None] when
    [os.path.exists(path)] is false. *)
Definition Database_init (file : option Store) : outcome Store :=
  let new_db := match file with None => true | Some _ => false end in
  let s := migrate_schema (create_tables file) in
  if new_db then ensure_admin s else Returns s.

(** ** Books *)

(** [SELECT * FROM books WHERE id=?] for an id that is bound. *)
Definition book_row (s : Store) (id : Z) : option Book :=
  find (fun b => bid b =? id) (books s).

Definition get_book (s : Store) (id : Z) : outcome (option Book) :=
  if in_int64 id then Returns (book_row s id) else Raises OverflowError.

Definition add_book (s : Store) (t a g : string) (available : Z)
    : outcome Z * Store :=
  if in_int64 available then
    let i := new_rowid bid (books_seq s) (books s) in
    (Returns i, set_books s (books s ++ [mkBook i t a g available]) i)
  else (Raises OverflowError, s).

Definition update_book (s : Store) (id : Z) (t a g : string) (available : Z)
    : outcome unit * Store :=
  if in_int64 available && in_int64 id then
    (Returns tt,
     set_books s
       (map (fun b => if bid b =? id then mkBook (bid b) t a g available else b)
            (books s))
       (books_seq s))
  else (Raises OverflowError, s).

Definition delete_book (s : Store) (id : Z) : outcome result * Store :=
  if in_int64 id then
    if 0 <? count_where (fun t => (book_id t =? id) && (returned t =? 0))
                        (transactions s)
    then (Returns (false, PyStr "Cannot delete book with active issues"), s)
    else (Returns (true, PyNone),
          set_books s (filter (fun b => negb (bid b =? id)) (books s)) (books_seq s))
  else (Raises OverflowError, s).

(** [if search:] is false for [None] and for the empty string. *)
Definition list_books (s : Store) (search : option string) : outcome (list Book) :=
  match search with
  | None => Returns (books s)
  | Some EmptyString => Returns (books s)
  | Some q =>
      let pat := ("%" ++ q ++ "%")%string in
      select_where
        (fun b => sql_or (sql_or (like pat (title b)) (like pat (author b)))
                         (like pat (genre b)))
        (books s)
  end.

(** ** Members *)

(** [SELECT * FROM members WHERE id=?] for an id that is bound. *)
Definition member_row (s : Store) (id : Z) : option Member :=
  find (fun m => mid m =? id) (members s).

Definition get_member (s : Store) (id : Z) : outcome (option Member) :=
  if in_int64 id then Returns (member_row s id) else Raises OverflowError.

Definition list_members (s : Store) : list Member := members s.

(** Python truth of a string: the empty string is false. *)
Definition nonempty (x : string) : bool :=
  match x with
  | EmptyString => false
  | String _ _ => true
  end.

(** The member row is inserted and committed first; [add_user] then runs on
    its own and its result is dropped.  [expiry] is the expiry as the DATE
    column holds it: the number that the text passed reads as, or else the
    text itself. *)
Definition add_member (s : Store) (nm em pw : string)
    (mtype : option string) (expiry : option sqlval) : result * Store :=
  if existsb (fun m => String.eqb (email m) em) (members s)
     || negb (membership_type_check mtype)
  then ((false, PyStr "Member email already exists"), s)
  else
    let i := new_rowid mid (members_seq s) (members s) in
    let s1 := set_members s (members s ++ [mkMember i nm em pw mtype expiry]) i in
    let s2 := snd (add_user s1 em pw "user") in
    ((true, PyNone), s2).

(** [UPDATE members ... WHERE id=?] fails when a row is touched and either
    the CHECK rejects the new type or another row holds the new email. *)
Definition members_update_conflict (s : Store) (id : Z) (em : string)
    (mtype : option string) : bool :=
  existsb (fun m => mid m =? id) (members s)
  && (negb (membership_type_check mtype)
      || existsb (fun m => negb (mid m =? id) && String.eqb (email m) em) (members s)).

(** [UPDATE users SET username=?, password=? WHERE username=?] with a new
    name different from the old one fails when a row is touched and some row
    already holds the new name. *)
Definition users_rename_conflict (s : Store) (old_email em : string) : bool :=
  existsb (fun u => String.eqb (username u) old_email) (users s)
  && existsb (fun u => String.eqb (username u) em) (users s).

(** [UPDATE users SET password=? WHERE username=?]. *)
Definition resync_password (s : Store) (em pw : string) : Store :=
  set_users s
    (map (fun u => if String.eqb (username u) em
                   then mkUser (uid u) (username u) pw (role u)
                   else u) (users s))
    (users_seq s).

(** [UPDATE users SET username=?, password=? WHERE username=?], whose
    [IntegrityError] nothing catches. *)
Definition rename_user (s : Store) (old_email em pw : string) : outcome result * Store :=
  if users_rename_conflict s old_email em
  then (Raises IntegrityError, s)
  else (Returns (true, PyNone),
        set_users s
          (map (fun u => if String.eqb (username u) old_email
                         then mkUser (uid u) em pw (role u)
                         else u) (users s))
          (users_seq s)).

(** The first SELECT binds [id]; the member row is updated and committed
    before the users table is touched; [old_email] is [None] when the member
    does not exist.  [expiry] is as for [add_member]. *)
Definition update_member (s : Store) (id : Z) (nm em pw : string)
    (mtype : option string) (expiry : option sqlval) : outcome result * Store :=
  if in_int64 id then
    let old_email := option_map email (member_row s id) in
    if members_update_conflict s id em mtype
    then (Returns (false, PyStr "Email already used by another member"), s)
    else
      let s1 := set_members s
                  (map (fun m => if mid m =? id
                                 then mkMember (mid m) nm em pw mtype expiry
                                 else m) (members s))
                  (members_seq s) in
      match old_email with
      | Some oe =>
          if nonempty oe && negb (String.eqb oe em)
          then rename_user s1 oe em pw
          else (Returns (true, PyNone), resync_password s1 em pw)
      | None => (Returns (true, PyNone), resync_password s1 em pw)
      end
  else (Raises OverflowError, s).

(** The count of the guard: both scalar subqueries yield NULL when they
    select no row, and a comparison with NULL holds for no transaction. *)
Definition member_active_issues (s : Store) (id : Z) : Z :=
  match member_row s id with
  | None => 0
  | Some m =>
      match get_user_by_username s (email m) with
      | None => 0
      | Some u =>
          count_where (fun t => (user_id t =? uid u) && (returned t =? 0))
                      (transactions s)
      end
  end.

Definition delete_member (s : Store) (id : Z) : outcome result * Store :=
  if in_int64 id then
    if 0 <? member_active_issues s id
    then (Returns (false, PyStr "Member has active issued books"), s)
    else
      let s1 :=
        match member_row s id with
        | Some r =>
            if nonempty (email r)
            then set_users s
                   (filter (fun u => negb (String.eqb (username u) (email r)))
                           (users s))
                   (users_seq s)
            else s
        | None => s
        end in
      (Returns (true, PyNone),
       set_members s1 (filter (fun m => negb (mid m =? id)) (members s1))
                   (members_seq s1))
  else (Raises OverflowError, s).

(** ** Transactions *)

Definition DEFAULT_ISSUE_DAYS : Z := 14.

(** [datetime.date.max.toordinal()]. *)
Definition MAXORDINAL : Z := 3652059.

(** [date + timedelta(days=n)]: [None] is the [OverflowError] of a
    [timedelta] beyond 999999999 days or of a date outside years 1..9999. *)
Definition date_add (d n : Z) : option Z :=
  if (Z.abs n <=? 999999999) && (0 <? d + n) && (d + n <=? MAXORDINAL)
  then Some (d + n)
  else None.

(** [SELECT * FROM transactions WHERE id=?] for an id that is bound. *)
Definition find_transaction (s : Store) (id : Z) : option Transaction :=
  find (fun t => tid t =? id) (transactions s).

Section Clock.

(** [datetime.date.isoformat] of the day with a given ordinal. *)
Variable isoformat : Z -> string.

(** [today] is the ordinal of [datetime.date.today()].  The user is looked
    up first; the SELECT on books is the first statement that binds [bk]. *)
Definition issue_book (s : Store) (today : Z) (uname : string) (bk days : Z)
    : outcome result * Store :=
  match get_user_by_username s uname with
  | None => (Returns (false, PyStr "User not found"), s)
  | Some user =>
      if in_int64 bk then
        match book_row s bk with
        | None => (Returns (false, PyStr "Book not found"), s)
        | Some b =>
            if available_count b <=? 0
            then (Returns (false, PyStr "No copies available"), s)
            else
              match date_add today days with
              | None => (Raises OverflowError, s)
              | Some due =>
                  let i := new_rowid tid (transactions_seq s) (transactions s) in
                  let s1 := set_transactions s
                              (transactions s
                               ++ [mkTransaction i (uid user) bk (isoformat today)
                                                 (isoformat due) None 0])
                              i in
                  (Returns (true, PyNone),
                   set_books s1
                     (map (fun r => if bid r =? bk
                                    then mkBook (bid r) (title r) (author r) (genre r)
                                                (sql_decr (available_count r))
                                    else r) (books s1))
                     (books_seq s1))
              end
        end
      else (Raises OverflowError, s)
  end.

(** The SELECT binds [trans_id]; [if tx["returned"]:] is true for every
    integer but 0. *)
Definition return_book (s : Store) (today : Z) (trans_id : Z)
    : outcome result * Store :=
  if in_int64 trans_id then
    match find_transaction s trans_id with
    | None => (Returns (false, PyStr "Transaction not found"), s)
    | Some tx =>
        if negb (returned tx =? 0)
        then (Returns (false, PyStr "Already returned"), s)
        else
          let s1 := set_transactions s
                      (map (fun t => if tid t =? trans_id
                                     then mkTransaction (tid t) (user_id t) (book_id t)
                                            (issue_date t) (due_date t)
                                            (Some (isoformat today)) 1
                                     else t) (transactions s))
                      (transactions_seq s) in
          (Returns (true, PyNone),
           set_books s1
             (map (fun r => if bid r =? book_id tx
                            then mkBook (bid r) (title r) (author r) (genre r)
                                        (sql_incr (available_count r))
                            else r) (books s1))
             (books_seq s1))
    end
  else (Raises OverflowError, s).

End Clock.

(** A row of the three-way join: [t.*], [u.username], [b.title]. *)
Record TransactionView := mkView {
  tx : Transaction;
  view_username : string;
  book_title : string
}.

(** [transactions t JOIN users u ON t.user_id=u.id JOIN books b ON
    t.book_id=b.id], as nested loops. *)
Definition joined (s : Store) : list TransactionView :=
  flat_map (fun t =>
    flat_map (fun u =>
      if user_id t =? uid u then
        flat_map (fun b =>
          if book_id t =? bid b
          then [mkView t (username u) (title b)]
          else []) (books s)
      else []) (users s)) (transactions s).

(** [ORDER BY t.issue_date DESC]: TEXT compares by the bytes of its UTF-8
    form, which is the order of the code points; rows with equal dates keep
    their relative order. *)
Fixpoint insert_desc (v : TransactionView) (l : list TransactionView)
    : list TransactionView :=
  match l with
  | [] => [v]
  | w :: l' =>
      if String.leb (issue_date (tx w)) (issue_date (tx v))
      then v :: w :: l'
      else w :: insert_desc v l'
  end.

Definition order_by_issue_date_desc (l : list TransactionView) : list TransactionView :=
  fold_right insert_desc [] l.

(** [if for_username:] is false for [None] and for the empty string. *)
Definition list_transactions (s : Store) (for_username : option string)
    : list TransactionView :=
  match for_username with
  | None => order_by_issue_date_desc (joined s)
  | Some EmptyString => order_by_issue_date_desc (joined s)
  | Some x =>
      order_by_issue_date_desc
        (filter (fun v => String.eqb (view_username v) x) (joined s))
  end.

(** ** Vocabulary of the properties *)

(** The referential facts the operations maintain: primary keys are unique
    and a loan that is still out points at a book that exists. *)
Record store_ok (s : Store) : Prop := mkStoreOk {
  ok_uid : NoDup (map uid (users s));
  ok_bid : NoDup (map bid (books s));
  ok_tid : NoDup (map tid (transactions s));
  ok_active_book :
    forall t, In t (transactions s) -> returned t = 0 ->
              exists b, In b (books s) /\ bid b = book_id t
}.

(** [x] occurs in [t] as a contiguous run of characters. *)
Definition is_substring (x t : string) : Prop :=
  exists pre post : string, t = (pre ++ x ++ post)%string.

Fixpoint lower (x : string) : string :=
  match x with
  | EmptyString => EmptyString
  | String c x' => String (tolower c) (lower x')
  end.

(** [x] occurs in [t] when ASCII letters are compared without case. *)
Definition ci_substring (x t : string) : Prop :=
  is_substring (lower x) (lower t).

(** A decision procedure for [is_substring]: try every position. *)
Fixpoint occurs (x t : string) : bool :=
  String.prefix x t
  || match t with
     | EmptyString => false
     | String _ t' => occurs x t'
     end.

(** No character of [x] is one of LIKE's two wildcards. *)
Fixpoint no_wildcard (x : string) : bool :=
  match x with
  | EmptyString => true
  | String c x' =>
      negb (Ascii.eqb c "%"%char) && negb (Ascii.eqb c "_"%char) && no_wildcard x'
  end.

(** No character of [x] is NUL. *)
Fixpoint no_nul (x : string) : bool :=
  match x with
  | EmptyString => true
  | String c x' => negb (Ascii.eqb c "000"%char) && no_nul x'
  end.

(** Descending order of issue dates. *)
Definition issue_date_ge (v w : TransactionView) : Prop :=
  String.leb (issue_date (tx w)) (issue_date (tx v)) = true.

(** The transactions that survive the join: their user and their book are
    still in the store, and the user passes [keep]. *)
Definition joinable (s : Store) (keep : string -> bool) (t : Transaction) : bool :=
  existsb (fun u => (user_id t =? uid u) && keep (username u)) (users s)
  && existsb (fun b => book_id t =? bid b) (books s).

(** ** A calendar and sample stores *)

Definition digit (n : Z) : ascii := ascii_of_N (Z.to_N (48 + n mod 10)).

Definition pad2 (n : Z) : string :=
  String (digit (n / 10)) (String (digit n) EmptyString).

Definition pad4 (n : Z) : string :=
  String (digit (n / 1000)) (String (digit (n / 100)) (pad2 n)).

(** Year, month and day of a proleptic Gregorian ordinal (day 1 is
    0001-01-01), by the usual 400-year era arithmetic. *)
Definition ymd (ord : Z) : Z * Z * Z :=
  let z := ord + 305 in
  let era := z / 146097 in
  let doe := z - era * 146097 in
  let yoe := (doe - doe / 1460 + doe / 36524 - doe / 146096) / 365 in
  let doy := doe - (365 * yoe + yoe / 4 - yoe / 100) in
  let mp := (5 * doy + 2) / 153 in
  let d := doy - (153 * mp + 2) / 5 + 1 in
  let m := if mp <? 10 then mp + 3 else mp - 9 in
  let y := yoe + era * 400 + (if m <=? 2 then 1 else 0) in
  (y, m, d).

Definition gregorian_isoformat (ord : Z) : string :=
  let '(y, m, d) := ymd ord in
  (pad4 y ++ "-" ++ pad2 m ++ "-" ++ pad2 d)%string.

(** 2026-11-03. *)
Definition sample_today : Z := 739923.

Definition fresh_store : Store :=
  mkStore [mkUser 1 "admin" "admin" "admin"] 1 [] 0 [] 0 [] 0.

(** The walk through of the specification: one copy of Dune, one member. *)
Definition dune_store : Store :=
  snd (add_member (snd (add_book fresh_store "Dune" "Herbert" "Sci-Fi" 1))
                  "A" "a@b.com" "pw" None None).

Definition dune_issued : Store :=
  snd (issue_book gregorian_isoformat dune_store sample_today "a@b.com" 1
                  DEFAULT_ISSUE_DAYS).

Definition dune_returned : Store :=
  snd (return_book gregorian_isoformat dune_issued sample_today 1).

Definition dune_deleted : Store :=
  snd (delete_book dune_returned 1).

(** The walk through continued: a second book is entered and issued, so
    that it is out on loan when the first book, returned, is deleted. *)
Definition emma_store : Store :=
  let s1 := snd (add_book dune_returned "Emma" "Austen" "Novel" 2) in
  snd (issue_book gregorian_isoformat s1 (sample_today + 1) "a@b.com" 2
                  DEFAULT_ISSUE_DAYS).

(** A book whose count has left the 64-bit range: entered with the largest
    count, issued twice, set back to the largest count and returned once.
    One loan is still out. *)
Definition brimful_store : Store :=
  let s1 := snd (add_book fresh_store "Dune" "Herbert" "Sci-Fi" INT64_MAX) in
  let s2 := snd (add_member s1 "A" "a@b.com" "pw" None None) in
  let s3 := snd (issue_book gregorian_isoformat s2 sample_today "a@b.com" 1 14) in
  let s4 := snd (issue_book gregorian_isoformat s3 sample_today "a@b.com" 1 14) in
  let s5 := snd (update_book s4 1 "Dune" "Herbert" "Sci-Fi" INT64_MAX) in
  snd (return_book gregorian_isoformat s5 sample_today 1).

(** A transactions table with a loan that is still out on a book id that the
    books table does not hold; no foreign key is enforced. *)
Definition dangling_loan_store : Store :=
  mkStore [mkUser 1 "admin" "admin" "admin"] 1 [] 5 [] 0
          [mkTransaction 1 1 5 "2026-11-03" "2026-11-17" None 0] 1.

(** A book whose title has a NUL character between a and b. *)
Definition nul_title : string :=
  String "a"%char (String "000"%char (String "b"%char EmptyString)).

Definition nul_title_store : Store :=
  snd (add_book fresh_store nul_title "Anon" "Misc" 1).

(** The search term e followed by a NUL character. *)
Definition nul_term : string := String "e"%char (String "000"%char EmptyString).

(** A search term of 49999 bytes: with the two [%] around it the pattern has
    50001 bytes. *)
Fixpoint repeat_char (c : ascii) (n : nat) : string :=
  match n with
  | O => EmptyString
  | S n' => String c (repeat_char c n')
  end.

Definition long_term : string := repeat_char "a"%char (Z.to_nat 49999).

(** A member registered with an empty email, as [add_member] accepts it. *)
Definition blank_email_store : Store :=
  snd (add_member fresh_store "B" "" "pw" None None).

(** The stores the program can be in: a database created on an empty path
    and then driven through any sequence of operations, whatever they
    answer. *)
Inductive reachable (isoformat : Z -> string) : Store -> Prop :=
| reach_init s :
    Database_init None = Returns s -> reachable isoformat s
| reach_add_user s uname pw r :
    reachable isoformat s -> reachable isoformat (snd (add_user s uname pw r))
| reach_add_book s t a g n :
    reachable isoformat s -> reachable isoformat (snd (add_book s t a g n))
| reach_update_book s id t a g n :
    reachable isoformat s -> reachable isoformat (snd (update_book s id t a g n))
| reach_delete_book s id :
    reachable isoformat s -> reachable isoformat (snd (delete_book s id))
| reach_add_member s nm em pw mtype expiry :
    reachable isoformat s ->
    reachable isoformat (snd (add_member s nm em pw mtype expiry))
| reach_update_member s id nm em pw mtype expiry :
    reachable isoformat s ->
    reachable isoformat (snd (update_member s id nm em pw mtype expiry))
| reach_delete_member s id :
    reachable isoformat s -> reachable isoformat (snd (delete_member s id))
| reach_issue_book s today uname bk days :
    reachable isoformat s ->
    reachable isoformat (snd (issue_book isoformat s today uname bk days))
| reach_return_book s today id :
    reachable isoformat s ->
    reachable isoformat (snd (return_book isoformat s today id)).

(** ** Further vocabulary: keys, names and stock *)

(** Rows of a table stand in strictly increasing id order and no id exceeds
    the recorded sequence value. *)
Definition ids_ok {A : Type} (key : A -> Z) (rows : list A) (seq : Z) : Prop :=
  StronglySorted Z.lt (map key rows) /\ forall a, In a rows -> key a <= seq.

(** What the PRIMARY KEY AUTOINCREMENT and UNIQUE declarations of
    [create_tables] promise. *)
Record keys_ok (s : Store) : Prop := mkKeysOk {
  ko_users : ids_ok uid (users s) (users_seq s);
  ko_books : ids_ok bid (books s) (books_seq s);
  ko_members : ids_ok mid (members s) (members_seq s);
  ko_transactions : ids_ok tid (transactions s) (transactions_seq s);
  ko_usernames : NoDup (map username (users s));
  ko_emails : NoDup (map email (members s))
}.

(** Copies of a book that are out: its transactions with flag 0. *)
Definition on_loan (s : Store) (id : Z) : Z :=
  count_where (fun t => (book_id t =? id) && (returned t =? 0)) (transactions s).

(** ** The session of the application (class [LibraryApp] and its pages) *)

(** [LibraryApp.current_user]: the id, username and role of the row that
    logged in; [None] before a login and after a logout. *)
Record Session := mkSession {
  session_id : Z;
  session_username : string;
  session_role : string
}.

(** [LibraryApp.login]: a matching row replaces the session; otherwise an
    error box is shown and the session stays as it is. *)
Definition login (s : Store) (current_user : option Session) (uname pw : string)
    : option Session :=
  match authenticate s uname pw with
  | Some row => Some (mkSession (uid row) (username row) (role row))
  | None => current_user
  end.

(** [LoginPage.on_login]: [u] and [p] are the two entries after [strip()];
    when either is empty a warning is shown and [login] is not called. *)
Definition on_login (s : Store) (current_user : option Session) (u p : string)
    : option Session :=
  if negb (nonempty u) || negb (nonempty p)
  then current_user
  else login s current_user u p.

(** The rows that [TransactionsPage.refresh] and [ReportsPage.refresh] put
    into the table: none without a session, all for an admin, the user's own
    otherwise. *)
Definition page_rows (s : Store) (current_user : option Session)
    : list TransactionView :=
  match current_user with
  | None => []
  | Some c =>
      if String.eqb (session_role c) "admin"
      then list_transactions s None
      else list_transactions s (Some (session_username c))
  end.

(** * Properties *)

Example gregorian_isoformat_sample :
  gregorian_isoformat sample_today = "2026-11-03"
  /\ gregorian_isoformat (sample_today + 14) = "2026-11-17"
  /\ gregorian_isoformat 1 = "0001-01-01"
  /\ gregorian_isoformat MAXORDINAL = "9999-12-31"
  /\ gregorian_isoformat 730179 = "2000-02-29".
Proof. repeat split; reflexivity. Qed.

(** The example scenario of the specification, run on the model. *)
Example walk_through :
  let iso := gregorian_isoformat in
  let '(r1, s1) := add_book fresh_store "Dune" "Herbert" "Sci-Fi" 1 in
  let '(r2, s2) := issue_book iso s1 sample_today "a@b.com" 1 DEFAULT_ISSUE_DAYS in
  let '(r3, s3) := add_member s2 "A" "a@b.com" "pw" None None in
  let '(r4, s4) := issue_book iso s3 sample_today "a@b.com" 1 DEFAULT_ISSUE_DAYS in
  let '(r5, s5) := issue_book iso s4 sample_today "a@b.com" 1 DEFAULT_ISSUE_DAYS in
  let '(r6, s6) := return_book iso s5 sample_today 1 in
  r1 = Returns 1
  /\ r2 = Returns (false, PyStr "User not found")
  /\ r3 = (true, PyNone)
  /\ r4 = Returns (true, PyNone)
  /\ get_book s4 1 = Returns (Some (mkBook 1 "Dune" "Herbert" "Sci-Fi" 0))
  /\ r5 = Returns (false, PyStr "No copies available")
  /\ r6 = Returns (true, PyNone)
  /\ get_book s6 1 = Returns (Some (mkBook 1 "Dune" "Herbert" "Sci-Fi" 1)).
Proof. vm_compute. repeat split; reflexivity. Qed.

(** ** Lookups, keys and fresh rowids *)

Section Keys.

Context {A : Type} (key : A -> Z).

Lemma find_map_key (g : A -> A) (id : Z) (l : list A) :
  (forall a, key (g a) = key a) ->
  find (fun a => key a =? id) (map g l)
  = option_map g (find (fun a => key a =? id) l).
Proof.
  intros Hg. induction l as [|a l IH]; simpl; [reflexivity|].
  rewrite Hg. destruct (key a =? id); [reflexivity | exact IH].
Qed.

Lemma find_key_some (id : Z) (l : list A) (a : A) :
  find (fun a => key a =? id) l = Some a -> In a l /\ key a = id.
Proof.
  intros H. apply find_some in H. destruct H as [Hin Hk].
  split; [exact Hin | apply Z.eqb_eq; exact Hk].
Qed.

Lemma find_key_none (id : Z) (l : list A) :
  find (fun a => key a =? id) l = None -> forall a, In a l -> key a <> id.
Proof.
  intros H a Hin Hk. apply (find_none _ _ H) in Hin.
  apply Z.eqb_neq in Hin. contradiction.
Qed.

Lemma max_id_ge (l : list A) (a : A) : In a l -> key a <= max_id key l.
Proof.
  induction l as [|b l IH]; simpl; [contradiction|].
  intros [-> | Hin]; [lia | specialize (IH Hin); lia].
Qed.

Lemma new_rowid_fresh (seq : Z) (l : list A) (a : A) :
  In a l -> key a < new_rowid key seq l.
Proof.
  intros Hin. apply max_id_ge in Hin. unfold new_rowid. lia.
Qed.

Lemma find_app_new (id : Z) (l : list A) (x : A) :
  (forall a, In a l -> key a <> id) -> key x = id ->
  find (fun a => key a =? id) (l ++ [x]) = Some x.
Proof.
  intros Hl Hx. induction l as [|a l IH]; simpl.
  - rewrite Hx, Z.eqb_refl. reflexivity.
  - destruct (key a =? id) eqn:E.
    + apply Z.eqb_eq in E. exfalso. apply (Hl a); [left; reflexivity | exact E].
    + apply IH. intros b Hb. apply Hl. right. exact Hb.
Qed.

Lemma filter_key_absent (id : Z) (l : list A) :
  (forall a, In a l -> key a <> id) ->
  filter (fun a => negb (key a =? id)) l = l.
Proof.
  intros Hl. induction l as [|a l IH]; simpl; [reflexivity|].
  assert (E : (key a =? id) = false)
    by (apply Z.eqb_neq; apply Hl; left; reflexivity).
  rewrite E. simpl. f_equal. apply IH. intros b Hb. apply Hl. right. exact Hb.
Qed.

Lemma count_where_pos (p : A -> bool) (l : list A) :
  (0 <? count_where p l) = true <-> exists a, In a l /\ p a = true.
Proof.
  unfold count_where. rewrite Z.ltb_lt. split.
  - intros H. destruct (filter p l) as [|a l'] eqn:E; [simpl in H; lia|].
    exists a. apply filter_In. rewrite E. left. reflexivity.
  - intros [a Ha]. apply filter_In in Ha.
    destruct (filter p l); [contradiction | simpl; lia].
Qed.

End Keys.

(** A lookup that returns was given an id that binds. *)
Lemma get_book_returns (s : Store) (id : Z) (r : option Book) :
  get_book s id = Returns r -> in_int64 id = true /\ book_row s id = r.
Proof.
  unfold get_book. destruct (in_int64 id); [|discriminate].
  intros H. injection H as <-. auto.
Qed.

Lemma get_member_returns (s : Store) (id : Z) (r : option Member) :
  get_member s id = Returns r -> in_int64 id = true /\ member_row s id = r.
Proof.
  unfold get_member. destruct (in_int64 id); [|discriminate].
  intros H. injection H as <-. auto.
Qed.

Lemma store_eta (s : Store) :
  mkStore (users s) (users_seq s) (books s) (books_seq s)
          (members s) (members_seq s) (transactions s) (transactions_seq s) = s.
Proof. destruct s; reflexivity. Qed.

(** ** Initialisation *)

(** C9. A database opened on a path that holds no file has a users table
    of exactly one row; that row is the only one with role admin, and its
    username and password are both admin. *)
Theorem fresh_database_has_one_admin :
  exists s,
    Database_init None = Returns s
    /\ users s = [mkUser 1 "admin" "admin" "admin"]
    /\ filter (fun u => String.eqb (role u) "admin") (users s)
       = [mkUser 1 "admin" "admin" "admin"]
    /\ authenticate s "admin" "admin" = Some (mkUser 1 "admin" "admin" "admin").
Proof.
  exists fresh_store. repeat split; reflexivity.
Qed.

(** ** Members and their mirrored users *)

Lemma add_user_taken (s : Store) (uname pw r : string) :
  existsb (fun u => String.eqb (username u) uname) (users s) = true ->
  add_user s uname pw r = ((false, PyStr "Username already exists"), s).
Proof.
  intros H. unfold add_user, insert_user. rewrite H. reflexivity.
Qed.

(** C1. When the email of a new member is already the username of some
    user, [add_member] still commits the member row and answers success,
    although [add_user] refused and the users table is as it was: no
    mirrored user was created. *)
Theorem add_member_keeps_member_when_add_user_fails
    (s : Store) (nm em pw : string) (mtype : option string) (expiry : option sqlval) :
  existsb (fun m => String.eqb (email m) em) (members s) = false ->
  membership_type_check mtype = true ->
  existsb (fun u => String.eqb (username u) em) (users s) = true ->
  exists s',
    add_member s nm em pw mtype expiry = ((true, PyNone), s')
    /\ members s' = members s
                    ++ [mkMember (new_rowid mid (members_seq s) (members s))
                                 nm em pw mtype expiry]
    /\ users s' = users s.
Proof.
  intros Hm Hc Hu. unfold add_member. rewrite Hm, Hc. simpl.
  rewrite add_user_taken by exact Hu.
  eexists. split; [reflexivity|]. split; reflexivity.
Qed.

Lemma add_member_keeps_member_when_add_user_fails_witness :
  exists s',
    add_member fresh_store "A" "admin" "pw" None None = ((true, PyNone), s')
    /\ members s' = [mkMember 1 "A" "admin" "pw" None None]
    /\ users s' = [mkUser 1 "admin" "admin" "admin"].
Proof.
  exact (add_member_keeps_member_when_add_user_fails
           fresh_store "A" "admin" "pw" None None eq_refl eq_refl eq_refl).
Defined.

(** ** Issue and return *)

Lemma book_row_adjust (bks : list Book) (k id : Z) (f : Z -> Z) :
  find (fun b => bid b =? id)
       (map (fun r => if bid r =? k
                      then mkBook (bid r) (title r) (author r) (genre r)
                                  (f (available_count r))
                      else r) bks)
  = option_map (fun r => if bid r =? k
                         then mkBook (bid r) (title r) (author r) (genre r)
                                     (f (available_count r))
                         else r)
               (find (fun b => bid b =? id) bks).
Proof.
  apply (find_map_key bid). intros a. destruct (bid a =? k); reflexivity.
Qed.

(** C2. For an existing user: a book whose count is 0 or less is refused
    with the message of the source and the store is returned as it was;
    and whenever [issue_book] answers success the book had a positive
    count, every other book and every user and member is as before, the
    transactions table gained exactly one row, not returned, for that user
    and book, and the book's count is one less - unless the count had left
    the 64-bit range and is held as a REAL, which stays as it is. *)
Theorem issue_book_copies (isoformat : Z -> string)
    (s : Store) (today : Z) (uname : string) (bk days : Z) (u : User) :
  get_user_by_username s uname = Some u ->
  (forall b, get_book s bk = Returns (Some b) -> available_count b <= 0 ->
     issue_book isoformat s today uname bk days
     = (Returns (false, PyStr "No copies available"), s))
  /\ (forall v s',
        issue_book isoformat s today uname bk days = (Returns (true, v), s') ->
        exists b due,
          get_book s bk = Returns (Some b)
          /\ 0 < available_count b
          /\ date_add today days = Some due
          /\ get_book s' bk
             = Returns (Some (mkBook (bid b) (title b) (author b) (genre b)
                                     (if INT64_MAX <? available_count b
                                      then available_count b
                                      else available_count b - 1)))
          /\ (forall id, id <> bk -> get_book s' id = get_book s id)
          /\ transactions s'
             = transactions s
               ++ [mkTransaction (new_rowid tid (transactions_seq s) (transactions s))
                                 (uid u) bk (isoformat today) (isoformat due) None 0]
          /\ users s' = users s
          /\ members s' = members s).
Proof.
  intros Hu. split.
  - intros b Hb Hc. apply get_book_returns in Hb. destruct Hb as [Hr Hb].
    unfold issue_book. rewrite Hu, Hr, Hb.
    apply Z.leb_le in Hc. rewrite Hc. reflexivity.
  - intros v s'. unfold issue_book. rewrite Hu.
    destruct (in_int64 bk) eqn:Hr; [|discriminate].
    destruct (book_row s bk) as [b|] eqn:Hb; [|discriminate].
    destruct (available_count b <=? 0) eqn:Hc; [discriminate|].
    destruct (date_add today days) as [due|]; [|discriminate].
    intros H. injection H as _ <-. exists b, due.
    apply Z.leb_gt in Hc. unfold get_book. rewrite Hr.
    split; [rewrite Hb; reflexivity|]. split; [exact Hc|]. split; [reflexivity|].
    unfold book_row in *. simpl.
    split.
    { rewrite (book_row_adjust _ bk bk sql_decr), Hb. simpl.
      assert (Hk := proj2 (find_key_some bid _ _ _ Hb)).
      apply Z.eqb_eq in Hk. rewrite Hk. reflexivity. }
    split.
    { intros id Hid. destruct (in_int64 id); [|reflexivity].
      rewrite (book_row_adjust _ bk id sql_decr).
      destruct (find (fun b0 => bid b0 =? id) (books s)) as [r|] eqn:Hf;
        [|reflexivity].
      simpl. destruct (find_key_some bid _ _ _ Hf) as [_ Hk].
      rewrite Hk. apply Z.eqb_neq in Hid. rewrite Hid. reflexivity. }
    repeat split; reflexivity.
Qed.

Lemma issue_book_copies_witness :
  issue_book gregorian_isoformat dune_issued sample_today "a@b.com" 1 14
  = (Returns (false, PyStr "No copies available"), dune_issued)
  /\ exists b due,
       get_book dune_store 1 = Returns (Some b)
       /\ 0 < available_count b
       /\ date_add sample_today 14 = Some due
       /\ get_book dune_issued 1
          = Returns (Some (mkBook (bid b) (title b) (author b) (genre b)
                                  (if INT64_MAX <? available_count b
                                   then available_count b
                                   else available_count b - 1)))
       /\ (forall id, id <> 1 -> get_book dune_issued id = get_book dune_store id)
       /\ transactions dune_issued
          = [mkTransaction 1 2 1 "2026-11-03" (gregorian_isoformat due) None 0]
       /\ users dune_issued = users dune_store
       /\ members dune_issued = members dune_store.
Proof.
  split.
  - apply (proj1 (issue_book_copies gregorian_isoformat dune_issued sample_today
                    "a@b.com" 1 14 (mkUser 2 "a@b.com" "pw" "user") eq_refl)
             (mkBook 1 "Dune" "Herbert" "Sci-Fi" 0)).
    + reflexivity.
    + simpl. lia.
  - exact (proj2 (issue_book_copies gregorian_isoformat dune_store sample_today
                    "a@b.com" 1 14 (mkUser 2 "a@b.com" "pw" "user") eq_refl)
             PyNone dune_issued eq_refl).
Defined.

(** Counterexample to C2 as stated, a count held as a REAL: in a store the
    operations produce the book's count stands at 9223372036854775808; the
    issue succeeds, adds its transaction and leaves the count where it was
    instead of taking 1 off. *)
Lemma issue_book_real_count_counterexample :
  get_book brimful_store 1
  = Returns (Some (mkBook 1 "Dune" "Herbert" "Sci-Fi" 9223372036854775808))
  /\ exists s',
       issue_book gregorian_isoformat brimful_store sample_today "a@b.com" 1 14
       = (Returns (true, PyNone), s')
       /\ List.length (transactions s')
          = S (List.length (transactions brimful_store))
       /\ get_book s' 1
          = Returns (Some (mkBook 1 "Dune" "Herbert" "Sci-Fi" 9223372036854775808)).
Proof.
  split; [reflexivity|]. eexists. split; [reflexivity|]. split; reflexivity.
Qed.

(** How [brimful_store] comes about: every step answers success, and the
    return takes the count from the largest 64-bit integer to the REAL one
    above it. *)
Example brimful_store_steps :
  let iso := gregorian_isoformat in
  let '(r1, s1) := add_book fresh_store "Dune" "Herbert" "Sci-Fi" INT64_MAX in
  let '(r2, s2) := add_member s1 "A" "a@b.com" "pw" None None in
  let '(r3, s3) := issue_book iso s2 sample_today "a@b.com" 1 14 in
  let '(r4, s4) := issue_book iso s3 sample_today "a@b.com" 1 14 in
  let '(r5, s5) := update_book s4 1 "Dune" "Herbert" "Sci-Fi" INT64_MAX in
  let '(r6, s6) := return_book iso s5 sample_today 1 in
  r1 = Returns 1 /\ r2 = (true, PyNone) /\ r3 = Returns (true, PyNone)
  /\ r4 = Returns (true, PyNone) /\ r5 = Returns tt /\ r6 = Returns (true, PyNone)
  /\ get_book s4 1
     = Returns (Some (mkBook 1 "Dune" "Herbert" "Sci-Fi" (INT64_MAX - 2)))
  /\ s6 = brimful_store
  /\ map returned (transactions s6) = [1; 0].
Proof. vm_compute. repeat split; reflexivity. Qed.

(** C3. For a transaction id that fits in 64 bits: [return_book] on an id
    that is not in the table answers Transaction not found, on one whose
    flag is not 0 Already returned, and in both cases returns the store as
    it was.  On one whose flag is 0 it answers success; the transaction
    then carries today's date as return date and flag 1, the book it
    references has one copy more - unless its count had left the 64-bit
    range and is held as a REAL, which stays as it is - and every other
    transaction, every other book and all users and members are as
    before. *)
Theorem return_book_spec (isoformat : Z -> string)
    (s : Store) (today trans_id : Z) :
  in_int64 trans_id = true ->
  (find_transaction s trans_id = None ->
   return_book isoformat s today trans_id
   = (Returns (false, PyStr "Transaction not found"), s))
  /\ (forall t, find_transaction s trans_id = Some t -> returned t <> 0 ->
        return_book isoformat s today trans_id
        = (Returns (false, PyStr "Already returned"), s))
  /\ (forall t, find_transaction s trans_id = Some t -> returned t = 0 ->
        exists s',
          return_book isoformat s today trans_id = (Returns (true, PyNone), s')
          /\ find_transaction s' trans_id
             = Some (mkTransaction (tid t) (user_id t) (book_id t) (issue_date t)
                                   (due_date t) (Some (isoformat today)) 1)
          /\ (forall id, id <> trans_id ->
                find_transaction s' id = find_transaction s id)
          /\ (forall b, get_book s (book_id t) = Returns (Some b) ->
                get_book s' (book_id t)
                = Returns (Some (mkBook (bid b) (title b) (author b) (genre b)
                                        (if INT64_MAX <? available_count b
                                         then available_count b
                                         else available_count b + 1))))
          /\ (get_book s (book_id t) = Returns None ->
              get_book s' (book_id t) = Returns None)
          /\ (forall id, id <> book_id t -> get_book s' id = get_book s id)
          /\ users s' = users s
          /\ members s' = members s).
Proof.
  intros Hrange. split; [|split].
  - intros H. unfold return_book. rewrite Hrange, H. reflexivity.
  - intros t H Hr. unfold return_book. rewrite Hrange, H.
    apply Z.eqb_neq in Hr. rewrite Hr. reflexivity.
  - intros t H Hr. unfold return_book. rewrite Hrange, H.
    rewrite Hr. simpl. eexists. split; [reflexivity|].
    unfold find_transaction, get_book, book_row in *. simpl.
    assert (Hmark : forall a : Transaction,
               tid (if tid a =? trans_id
                    then mkTransaction (tid a) (user_id a) (book_id a) (issue_date a)
                                       (due_date a) (Some (isoformat today)) 1
                    else a)
               = tid a)
      by (intros a; destruct (tid a =? trans_id); reflexivity).
    split.
    { rewrite (find_map_key tid _ trans_id _ Hmark), H. simpl.
      assert (Hk := proj2 (find_key_some tid _ _ _ H)).
      apply Z.eqb_eq in Hk. rewrite Hk. reflexivity. }
    split.
    { intros id Hid. rewrite (find_map_key tid _ id _ Hmark).
      destruct (find (fun t0 => tid t0 =? id) (transactions s)) as [r|] eqn:Hf;
        [|reflexivity].
      simpl. destruct (find_key_some tid _ _ _ Hf) as [_ Hk].
      rewrite Hk. apply Z.eqb_neq in Hid. rewrite Hid. reflexivity. }
    split.
    { intros b. destruct (in_int64 (book_id t)); [|discriminate].
      intros Hb. injection Hb as Hb.
      rewrite (book_row_adjust _ (book_id t) (book_id t) sql_incr), Hb. simpl.
      assert (Hk := proj2 (find_key_some bid _ _ _ Hb)).
      apply Z.eqb_eq in Hk. rewrite Hk. reflexivity. }
    split.
    { destruct (in_int64 (book_id t)); [|discriminate].
      intros Hb. injection Hb as Hb.
      rewrite (book_row_adjust _ (book_id t) (book_id t) sql_incr), Hb.
      reflexivity. }
    split.
    { intros id Hid. destruct (in_int64 id); [|reflexivity].
      rewrite (book_row_adjust _ (book_id t) id sql_incr).
      destruct (find (fun b => bid b =? id) (books s)) as [r|] eqn:Hf;
        [|reflexivity].
      simpl. destruct (find_key_some bid _ _ _ Hf) as [_ Hk].
      rewrite Hk. apply Z.eqb_neq in Hid. rewrite Hid. reflexivity. }
    split; reflexivity.
Qed.

Lemma return_book_spec_witness :
  return_book gregorian_isoformat dune_store sample_today 7
  = (Returns (false, PyStr "Transaction not found"), dune_store)
  /\ return_book gregorian_isoformat dune_returned sample_today 1
     = (Returns (false, PyStr "Already returned"), dune_returned)
  /\ exists s',
       return_book gregorian_isoformat dune_issued sample_today 1
       = (Returns (true, PyNone), s')
       /\ find_transaction s' 1
          = Some (mkTransaction 1 2 1 "2026-11-03" "2026-11-17"
                                (Some "2026-11-03") 1)
       /\ get_book s' 1 = Returns (Some (mkBook 1 "Dune" "Herbert" "Sci-Fi" 1))
       /\ users s' = users dune_issued
       /\ members s' = members dune_issued.
Proof.
  split; [|split].
  - exact (proj1 (return_book_spec gregorian_isoformat dune_store sample_today 7
                    eq_refl) eq_refl).
  - apply (proj1 (proj2 (return_book_spec gregorian_isoformat dune_returned
                           sample_today 1 eq_refl))
             (mkTransaction 1 2 1 "2026-11-03" "2026-11-17" (Some "2026-11-03") 1)).
    + reflexivity.
    + simpl. lia.
  - destruct (proj2 (proj2 (return_book_spec gregorian_isoformat dune_issued
                              sample_today 1 eq_refl))
                (mkTransaction 1 2 1 "2026-11-03" "2026-11-17" None 0)
                eq_refl eq_refl)
      as [s' [H1 [H2 [_ [H4 [_ [_ [H7 H8]]]]]]]].
    exists s'. split; [exact H1|]. split; [exact H2|].
    split; [exact (H4 (mkBook 1 "Dune" "Herbert" "Sci-Fi" 0) eq_refl)|].
    split; [exact H7 | exact H8].
Defined.

(** Counterexample to C3 as stated, twice over: a transaction id beyond 64
    bits, which no row has, is answered with an OverflowError and not with
    Transaction not found; and the return of a loan on a book whose count
    is held as a REAL succeeds without raising the count. *)
Lemma return_book_counterexample :
  find_transaction dune_issued 9223372036854775808 = None
  /\ return_book gregorian_isoformat dune_issued sample_today 9223372036854775808
     = (Raises OverflowError, dune_issued)
  /\ find_transaction brimful_store 2
     = Some (mkTransaction 2 2 1 "2026-11-03" "2026-11-17" None 0)
  /\ get_book brimful_store 1
     = Returns (Some (mkBook 1 "Dune" "Herbert" "Sci-Fi" 9223372036854775808))
  /\ exists s',
       return_book gregorian_isoformat brimful_store sample_today 2
       = (Returns (true, PyNone), s')
       /\ get_book s' 1
          = Returns (Some (mkBook 1 "Dune" "Herbert" "Sci-Fi" 9223372036854775808)).
Proof.
  split; [reflexivity|]. split; [reflexivity|]. split; [reflexivity|].
  split; [reflexivity|]. eexists. split; reflexivity.
Qed.

Lemma sql_incr_decr (c : Z) : sql_incr (sql_decr c) = c.
Proof.
  unfold sql_incr, sql_decr, INT64_MAX.
  destruct (9223372036854775807 <? c) eqn:E.
  - rewrite E. reflexivity.
  - apply Z.ltb_ge in E.
    destruct (9223372036854775807 <? c - 1) eqn:E'; [apply Z.ltb_lt in E'|]; lia.
Qed.

Lemma books_issue_return (bks : list Book) (bk : Z) :
  map (fun r => if bid r =? bk
                then mkBook (bid r) (title r) (author r) (genre r)
                            (sql_incr (available_count r))
                else r)
      (map (fun r => if bid r =? bk
                     then mkBook (bid r) (title r) (author r) (genre r)
                                 (sql_decr (available_count r))
                     else r)
           bks)
  = bks.
Proof.
  rewrite map_map. rewrite <- (map_id bks) at 2. apply map_ext.
  intros [i t a g n]. simpl. destruct (i =? bk) eqn:E; simpl.
  - rewrite E, sql_incr_decr. reflexivity.
  - rewrite E. reflexivity.
Qed.

Lemma max_id_nonneg {A : Type} (key : A -> Z) (l : list A) : 0 <= max_id key l.
Proof.
  induction l as [|a l IH]; simpl; lia.
Qed.

Lemma new_rowid_in_int64 {A : Type} (key : A -> Z) (seq : Z) (l : list A) :
  new_rowid key seq l <= INT64_MAX -> in_int64 (new_rowid key seq l) = true.
Proof.
  intros H. unfold in_int64. apply andb_true_intro. split.
  - apply Z.leb_le. pose proof (max_id_nonneg key l).
    unfold new_rowid, INT64_MIN. lia.
  - apply Z.leb_le. exact H.
Qed.

(** C4. After a successful [issue_book] - the id of its new transaction
    fitting in 64 bits, as every rowid of a database file does - the
    transactions table ends with the row just created; [return_book] on
    that row's id succeeds, and then the books table - so in particular the
    available count of the issued book - is exactly what it was before the
    issue. *)
Theorem issue_then_return_restores_count (isoformat : Z -> string)
    (s s1 : Store) (today today' : Z) (uname : string) (bk days : Z) (v : pyval) :
  issue_book isoformat s today uname bk days = (Returns (true, v), s1) ->
  new_rowid tid (transactions_seq s) (transactions s) <= INT64_MAX ->
  exists b t s2,
    get_book s bk = Returns (Some b)
    /\ 0 < available_count b
    /\ transactions s1 = transactions s ++ [t]
    /\ book_id t = bk
    /\ get_book s1 bk
       = Returns (Some (mkBook (bid b) (title b) (author b) (genre b)
                               (if INT64_MAX <? available_count b
                                then available_count b
                                else available_count b - 1)))
    /\ return_book isoformat s1 today' (tid t) = (Returns (true, PyNone), s2)
    /\ get_book s2 bk = Returns (Some b)
    /\ books s2 = books s.
Proof.
  unfold issue_book.
  destruct (get_user_by_username s uname) as [u|]; [|discriminate].
  destruct (in_int64 bk) eqn:Hr; [|discriminate].
  destruct (book_row s bk) as [b|] eqn:Hb; [|discriminate].
  destruct (available_count b <=? 0) eqn:Hc; [discriminate|].
  destruct (date_add today days) as [due|]; [|discriminate].
  intros H Hmax. injection H as _ <-.
  apply new_rowid_in_int64 in Hmax.
  set (i := new_rowid tid (transactions_seq s) (transactions s)) in *.
  set (t := mkTransaction i (uid u) bk (isoformat today) (isoformat due) None 0).
  assert (Hfind : find (fun x => tid x =? i) (transactions s ++ [t]) = Some t).
  { apply (find_app_new tid); [|reflexivity].
    intros a Ha. apply (new_rowid_fresh tid (transactions_seq s)) in Ha.
    fold i in Ha. lia. }
  exists b, t. eexists. unfold get_book. rewrite Hr.
  split; [rewrite Hb; reflexivity|]. split; [apply Z.leb_gt; exact Hc|].
  split; [reflexivity|]. split; [reflexivity|].
  split.
  { unfold book_row in *. simpl.
    rewrite (book_row_adjust _ bk bk sql_decr), Hb. simpl.
    assert (Hk := proj2 (find_key_some bid _ _ _ Hb)).
    apply Z.eqb_eq in Hk. rewrite Hk. reflexivity. }
  split.
  { unfold return_book, find_transaction. simpl. rewrite Hmax, Hfind. simpl.
    unfold set_books, set_transactions. simpl.
    rewrite books_issue_return. reflexivity. }
  split; [unfold book_row in *; simpl; rewrite Hb; reflexivity | reflexivity].
Qed.

Lemma issue_then_return_restores_count_witness :
  exists b t s2,
    get_book dune_store 1 = Returns (Some b)
    /\ 0 < available_count b
    /\ transactions dune_issued = transactions dune_store ++ [t]
    /\ book_id t = 1
    /\ get_book dune_issued 1
       = Returns (Some (mkBook (bid b) (title b) (author b) (genre b)
                               (if INT64_MAX <? available_count b
                                then available_count b
                                else available_count b - 1)))
    /\ return_book gregorian_isoformat dune_issued (sample_today + 1) (tid t)
       = (Returns (true, PyNone), s2)
    /\ get_book s2 1 = Returns (Some b)
    /\ books s2 = books dune_store.
Proof.
  apply (issue_then_return_restores_count gregorian_isoformat
           dune_store dune_issued sample_today (sample_today + 1)
           "a@b.com" 1 14 PyNone eq_refl).
  vm_compute. discriminate.
Defined.

(** ** Deleting books and members *)

(** C6. While some transaction with flag 0 is in the table, [delete_book]
    on the book id it references - an id that fits in 64 bits, as every id
    of a database file does - and [delete_member] on a member whose mirrored
    user it references, answer failure with the message of the source and
    return the store as it was. *)
Theorem delete_with_active_issue_refused
    (s : Store) (id : Z) (t : Transaction) :
  In t (transactions s) ->
  returned t = 0 ->
  (book_id t = id -> in_int64 id = true ->
   delete_book s id
   = (Returns (false, PyStr "Cannot delete book with active issues"), s))
  /\ (forall m u,
        get_member s id = Returns (Some m) ->
        get_user_by_username s (email m) = Some u ->
        user_id t = uid u ->
        delete_member s id
        = (Returns (false, PyStr "Member has active issued books"), s)).
Proof.
  intros Hin Hr. split.
  - intros Hb Hrange. unfold delete_book. rewrite Hrange.
    assert (H : (0 <? count_where (fun x => (book_id x =? id) && (returned x =? 0))
                                  (transactions s)) = true).
    { apply count_where_pos. exists t. split; [exact Hin|].
      rewrite Hb, Hr, !Z.eqb_refl. reflexivity. }
    rewrite H. reflexivity.
  - intros m u Hm Hu Ht. apply get_member_returns in Hm.
    destruct Hm as [Hrange Hm].
    unfold delete_member, member_active_issues.
    rewrite Hrange, Hm, Hu.
    assert (H : (0 <? count_where (fun x => (user_id x =? uid u) && (returned x =? 0))
                                  (transactions s)) = true).
    { apply count_where_pos. exists t. split; [exact Hin|].
      rewrite Ht, Hr, !Z.eqb_refl. reflexivity. }
    rewrite H. reflexivity.
Qed.

Lemma delete_with_active_issue_refused_witness :
  delete_book dune_issued 1
  = (Returns (false, PyStr "Cannot delete book with active issues"), dune_issued)
  /\ delete_member dune_issued 1
     = (Returns (false, PyStr "Member has active issued books"), dune_issued).
Proof.
  pose proof (delete_with_active_issue_refused dune_issued 1
                (mkTransaction 1 2 1 "2026-11-03" "2026-11-17" None 0)
                (or_introl eq_refl) eq_refl) as [Hb Hm].
  split.
  - exact (Hb eq_refl eq_refl).
  - exact (Hm (mkMember 1 "A" "a@b.com" "pw" None None)
              (mkUser 2 "a@b.com" "pw" "user") eq_refl eq_refl eq_refl).
Defined.

(** C10. For an id that fits in 64 bits: [delete_book] on an id that no
    book has and that no transaction with flag 0 references, and
    [delete_member] on an id that no member has, answer success
    (True, None) and return the store as it was, all four tables
    included. *)
Theorem delete_missing_row_succeeds (s : Store) (id : Z) :
  (get_book s id = Returns None ->
   (forall t, In t (transactions s) -> book_id t = id -> returned t <> 0) ->
   delete_book s id = (Returns (true, PyNone), s))
  /\ (get_member s id = Returns None ->
      delete_member s id = (Returns (true, PyNone), s)).
Proof.
  split.
  - intros Hb Hfree. apply get_book_returns in Hb. destruct Hb as [Hrange Hb].
    unfold delete_book. rewrite Hrange.
    destruct (0 <? count_where (fun t => (book_id t =? id) && (returned t =? 0))
                               (transactions s)) eqn:E.
    + exfalso. apply count_where_pos in E. destruct E as [t [Hin Ht]].
      apply andb_prop in Ht. destruct Ht as [Hk Hr].
      apply Z.eqb_eq in Hk. apply Z.eqb_eq in Hr.
      exact (Hfree t Hin Hk Hr).
    + rewrite (filter_key_absent bid); [|exact (find_key_none bid id (books s) Hb)].
      unfold set_books. rewrite store_eta. reflexivity.
  - intros Hm. apply get_member_returns in Hm. destruct Hm as [Hrange Hm].
    unfold delete_member, member_active_issues. rewrite Hrange, Hm. simpl.
    rewrite (filter_key_absent mid); [|exact (find_key_none mid id (members s) Hm)].
    unfold set_members. rewrite store_eta. reflexivity.
Qed.

Lemma delete_missing_row_succeeds_witness :
  delete_book dune_issued 5 = (Returns (true, PyNone), dune_issued)
  /\ delete_member dune_issued 5 = (Returns (true, PyNone), dune_issued).
Proof.
  pose proof (delete_missing_row_succeeds dune_issued 5) as [Hb Hm].
  split.
  - apply (Hb eq_refl). intros t [<- | []]. simpl. discriminate.
  - exact (Hm eq_refl).
Defined.

(** Counterexample to C10 as stated, twice over: with a loan still out on a
    book id that the books table does not hold, [delete_book] on that id is
    refused; and an id beyond 64 bits, which no row has, is answered by
    both operations with an OverflowError. *)
Lemma delete_missing_row_counterexample :
  get_book dangling_loan_store 5 = Returns None
  /\ delete_book dangling_loan_store 5
     = (Returns (false, PyStr "Cannot delete book with active issues"),
        dangling_loan_store)
  /\ book_row dune_store 9223372036854775808 = None
  /\ delete_book dune_store 9223372036854775808 = (Raises OverflowError, dune_store)
  /\ member_row dune_store 9223372036854775808 = None
  /\ delete_member dune_store 9223372036854775808
     = (Raises OverflowError, dune_store).
Proof.
  repeat split; reflexivity.
Qed.

(** ** The invariant and the operations that keep it *)

Section NoDupKeys.

Context {A : Type} (key : A -> Z).

Lemma NoDup_keys_app_new (l : list A) (x : A) :
  NoDup (map key l) ->
  (forall a, In a l -> key a < key x) ->
  NoDup (map key (l ++ [x])).
Proof.
  intros Hnd Hlt. rewrite map_app. simpl.
  apply NoDup_app; [exact Hnd | repeat constructor; intros [] | ].
  intros k Hk [<- | []].
  apply in_map_iff in Hk. destruct Hk as [a [Ha Hin]].
  specialize (Hlt a Hin). lia.
Qed.

Lemma NoDup_keys_filter (p : A -> bool) (l : list A) :
  NoDup (map key l) -> NoDup (map key (filter p l)).
Proof.
  induction l as [|a l IH]; simpl; intros Hnd; [constructor|].
  inversion Hnd as [|? ? Hnotin Hnd']; subst.
  destruct (p a); simpl; [|exact (IH Hnd')].
  constructor; [|exact (IH Hnd')].
  intros Hin. apply Hnotin. apply in_map_iff in Hin.
  destruct Hin as [b [Hb Hbin]]. apply filter_In in Hbin.
  apply in_map_iff. exists b. tauto.
Qed.

Lemma map_keys_same (g : A -> A) (l : list A) :
  (forall a, key (g a) = key a) -> map key (map g l) = map key l.
Proof.
  intros Hg. rewrite map_map. apply map_ext. exact Hg.
Qed.

End NoDupKeys.

Lemma store_ok_fresh : store_ok fresh_store.
Proof.
  constructor; simpl.
  - constructor; [intros [] | constructor].
  - constructor.
  - constructor.
  - intros t [].
Qed.

Lemma Database_init_ok (s : Store) :
  Database_init None = Returns s -> store_ok s.
Proof.
  intros H. injection H as <-. exact store_ok_fresh.
Qed.

Lemma add_user_ok (s : Store) (uname pw r : string) :
  store_ok s -> store_ok (snd (add_user s uname pw r)).
Proof.
  intros [Hu Hb Ht Ha]. unfold add_user, insert_user.
  destruct (existsb _ _ || negb _); simpl; constructor; simpl; try assumption.
  apply NoDup_keys_app_new; [exact Hu|].
  intros a Hin. simpl. apply new_rowid_fresh. exact Hin.
Qed.

Lemma add_book_ok (s : Store) (t a g : string) (n : Z) :
  store_ok s -> store_ok (snd (add_book s t a g n)).
Proof.
  intros Hok. pose proof Hok as [Hu Hb Ht Ha]. unfold add_book.
  destruct (in_int64 n); [|exact Hok].
  constructor; simpl; try assumption.
  - apply NoDup_keys_app_new; [exact Hb|].
    intros x Hin. simpl. apply new_rowid_fresh. exact Hin.
  - intros x Hin Hr. destruct (Ha x Hin Hr) as [b [Hbin Hbid]].
    exists b. split; [apply in_or_app; left; exact Hbin | exact Hbid].
Qed.

Lemma books_same_ids (g : Book -> Book) (bks : list Book) (k : Z) :
  (forall b, bid (g b) = bid b) ->
  (exists b, In b bks /\ bid b = k) ->
  exists b, In b (map g bks) /\ bid b = k.
Proof.
  intros Hg [b [Hin Hk]]. exists (g b).
  split; [apply in_map; exact Hin | rewrite Hg; exact Hk].
Qed.

Lemma update_book_ok (s : Store) (id : Z) (t a g : string) (n : Z) :
  store_ok s -> store_ok (snd (update_book s id t a g n)).
Proof.
  intros Hok. pose proof Hok as [Hu Hb Ht Ha]. unfold update_book.
  destruct (in_int64 n && in_int64 id); [|exact Hok].
  assert (Hg : forall b : Book,
             bid (if bid b =? id then mkBook (bid b) t a g n else b) = bid b)
    by (intros b; destruct (bid b =? id); reflexivity).
  constructor; simpl; try assumption.
  - rewrite (map_keys_same bid _ _ Hg). exact Hb.
  - intros x Hin Hr. apply books_same_ids; [exact Hg | exact (Ha x Hin Hr)].
Qed.

Lemma delete_book_ok (s : Store) (id : Z) :
  store_ok s -> store_ok (snd (delete_book s id)).
Proof.
  intros Hok. pose proof Hok as [Hu Hb Ht Ha]. unfold delete_book.
  destruct (in_int64 id); [|exact Hok].
  destruct (0 <? count_where _ _) eqn:E; simpl; [exact Hok|].
  constructor; simpl; try assumption.
  - apply NoDup_keys_filter. exact Hb.
  - intros x Hin Hr. destruct (Ha x Hin Hr) as [b [Hbin Hbid]].
    exists b. split; [|exact Hbid]. apply filter_In. split; [exact Hbin|].
    destruct (bid b =? id) eqn:Hk; [|reflexivity]. exfalso.
    apply Z.eqb_eq in Hk.
    assert (H : (0 <? count_where (fun t => (book_id t =? id) && (returned t =? 0))
                                  (transactions s)) = true).
    { apply count_where_pos. exists x. split; [exact Hin|].
      rewrite <- Hbid, Hk, Hr, !Z.eqb_refl. reflexivity. }
    congruence.
Qed.

Lemma add_member_ok (s : Store) (nm em pw : string)
    (mtype : option string) (expiry : option sqlval) :
  store_ok s -> store_ok (snd (add_member s nm em pw mtype expiry)).
Proof.
  intros Hok. unfold add_member.
  destruct (existsb _ _ || negb _); simpl; [exact Hok|].
  apply add_user_ok. destruct Hok as [Hu Hb Ht Ha].
  constructor; simpl; assumption.
Qed.

Lemma update_member_ok (s : Store) (id : Z) (nm em pw : string)
    (mtype : option string) (expiry : option sqlval) :
  store_ok s -> store_ok (snd (update_member s id nm em pw mtype expiry)).
Proof.
  intros Hok. pose proof Hok as [Hu Hb Ht Ha]. unfold update_member.
  destruct (in_int64 id); [|exact Hok].
  destruct (members_update_conflict s id em mtype); simpl; [exact Hok|].
  assert (Hsync : forall x, store_ok (resync_password
            (set_members s x (members_seq s)) em pw)).
  { intros x. constructor; simpl; try assumption.
    rewrite (map_keys_same uid); [exact Hu|].
    intros u. destruct (String.eqb (username u) em); reflexivity. }
  destruct (option_map email (member_row s id)) as [oe|]; [|apply Hsync].
  destruct (nonempty oe && negb (String.eqb oe em)); [|apply Hsync].
  unfold rename_user. destruct (users_rename_conflict _ oe em); simpl.
  - constructor; simpl; assumption.
  - constructor; simpl; try assumption.
    rewrite (map_keys_same uid); [exact Hu|].
    intros u. destruct (String.eqb (username u) oe); reflexivity.
Qed.

Lemma delete_member_ok (s : Store) (id : Z) :
  store_ok s -> store_ok (snd (delete_member s id)).
Proof.
  intros Hok. pose proof Hok as [Hu Hb Ht Ha]. unfold delete_member.
  destruct (in_int64 id); [|exact Hok].
  destruct (0 <? member_active_issues s id); simpl; [exact Hok|].
  destruct (member_row s id) as [r|]; [destruct (nonempty (email r))|];
    constructor; simpl; try assumption.
  apply NoDup_keys_filter. exact Hu.
Qed.

Lemma issue_book_ok (isoformat : Z -> string) (s : Store) (today : Z)
    (uname : string) (bk days : Z) :
  store_ok s -> store_ok (snd (issue_book isoformat s today uname bk days)).
Proof.
  intros Hok. pose proof Hok as [Hu Hb Ht Ha]. unfold issue_book.
  destruct (get_user_by_username s uname) as [u|]; [|exact Hok].
  destruct (in_int64 bk); [|exact Hok].
  destruct (book_row s bk) as [b|] eqn:Hbk; [|exact Hok].
  destruct (available_count b <=? 0); [exact Hok|].
  destruct (date_add today days) as [due|]; [|exact Hok].
  assert (Hg : forall r : Book,
             bid (if bid r =? bk
                  then mkBook (bid r) (title r) (author r) (genre r)
                              (sql_decr (available_count r))
                  else r)
             = bid r)
    by (intros r; destruct (bid r =? bk); reflexivity).
  constructor; simpl; try assumption.
  - rewrite (map_keys_same bid _ _ Hg). exact Hb.
  - apply NoDup_keys_app_new; [exact Ht|].
    intros x Hin. simpl. apply new_rowid_fresh. exact Hin.
  - intros x Hin Hr. apply books_same_ids; [exact Hg|].
    apply in_app_or in Hin. destruct Hin as [Hin | [<- | []]].
    + exact (Ha x Hin Hr).
    + simpl. exists b. exact (find_key_some bid _ _ _ Hbk).
Qed.

Lemma return_book_ok (isoformat : Z -> string) (s : Store) (today id : Z) :
  store_ok s -> store_ok (snd (return_book isoformat s today id)).
Proof.
  intros Hok. pose proof Hok as [Hu Hb Ht Ha]. unfold return_book.
  destruct (in_int64 id); [|exact Hok].
  destruct (find_transaction s id) as [t|]; [|exact Hok].
  destruct (negb (returned t =? 0)); [exact Hok|].
  assert (Hg : forall r : Book,
             bid (if bid r =? book_id t
                  then mkBook (bid r) (title r) (author r) (genre r)
                              (sql_incr (available_count r))
                  else r)
             = bid r)
    by (intros r; destruct (bid r =? book_id t); reflexivity).
  constructor; simpl; try assumption.
  - rewrite (map_keys_same bid _ _ Hg). exact Hb.
  - rewrite (map_keys_same tid); [exact Ht|].
    intros x. destruct (tid x =? id); reflexivity.
  - intros x Hin Hr. apply books_same_ids; [exact Hg|].
    apply in_map_iff in Hin. destruct Hin as [y [Hy Hin]].
    destruct (tid y =? id).
    + subst x. simpl in Hr. discriminate.
    + subst x. exact (Ha y Hin Hr).
Qed.

(** Every store the program can reach satisfies the invariant. *)
Lemma reachable_ok (isoformat : Z -> string) (s : Store) :
  reachable isoformat s -> store_ok s.
Proof.
  induction 1.
  - eapply Database_init_ok; eassumption.
  - apply add_user_ok; assumption.
  - apply add_book_ok; assumption.
  - apply update_book_ok; assumption.
  - apply delete_book_ok; assumption.
  - apply add_member_ok; assumption.
  - apply update_member_ok; assumption.
  - apply delete_member_ok; assumption.
  - apply issue_book_ok; assumption.
  - apply return_book_ok; assumption.
Qed.

Lemma reachable_dune_issued : reachable gregorian_isoformat dune_issued.
Proof.
  apply reach_issue_book, reach_add_member, reach_add_book, reach_init.
  reflexivity.
Qed.

(** In a store the program can reach every loan that is still out is on a
    book that exists, so there [delete_book] on an id that no book has
    answers success. *)
Lemma delete_missing_book_reachable (isoformat : Z -> string) (s : Store) (id : Z) :
  reachable isoformat s ->
  get_book s id = Returns None ->
  forall t, In t (transactions s) -> book_id t = id -> returned t <> 0.
Proof.
  intros Hr Hb t Hin Hk Hz. apply get_book_returns in Hb. destruct Hb as [_ Hb].
  destruct (ok_active_book s (reachable_ok _ _ Hr) t Hin Hz) as [b [Hbin Hbid]].
  apply (find_key_none bid id (books s) Hb b Hbin). congruence.
Qed.


(** ** Changing a member's email *)

Lemma find_renamed (l : list User) (oe em pw p : string) (u : User) :
  find (fun x => String.eqb (username x) oe) l = Some u ->
  existsb (fun x => String.eqb (username x) em) l = false ->
  find (fun x => String.eqb (username x) em && String.eqb (upassword x) pw)
       (map (fun x => if String.eqb (username x) oe
                      then mkUser (uid x) em pw (role x) else x) l)
  = Some (mkUser (uid u) em pw (role u)).
Proof.
  induction l as [|a l IH]; simpl; [discriminate|].
  intros Hf He. apply orb_false_elim in He. destruct He as [Ha Hl].
  destruct (String.eqb (username a) oe) eqn:E; simpl.
  - injection Hf as <-. rewrite !String.eqb_refl. reflexivity.
  - rewrite Ha. simpl. exact (IH Hf Hl).
Qed.

Lemma find_old_name_gone (l : list User) (oe em pw : string) :
  oe <> em ->
  find (fun x => String.eqb (username x) oe)
       (map (fun x => if String.eqb (username x) oe
                      then mkUser (uid x) em pw (role x) else x) l)
  = None.
Proof.
  intros Hne. induction l as [|a l IH]; simpl; [reflexivity|].
  destruct (String.eqb (username a) oe) eqn:E; simpl.
  - assert (H : String.eqb em oe = false)
      by (apply String.eqb_neq; congruence).
    rewrite H. exact IH.
  - rewrite E. exact IH.
Qed.

Lemma find_weaken {A : Type} (p q : A -> bool) (l : list A) :
  find p l = None -> find (fun a => p a && q a) l = None.
Proof.
  induction l as [|a l IH]; simpl; [reflexivity|].
  destruct (p a); [discriminate | exact IH].
Qed.

Lemma nonempty_true (x : string) : x <> EmptyString -> nonempty x = true.
Proof. destruct x; [congruence | reflexivity]. Qed.

(** C8. For a member whose email is not the empty string and whose
    mirrored user exists, an [update_member] that changes the email and
    answers success leaves the member with the new email, turns the
    mirrored user into a user with the new email as username and the given
    password (same id and role), so that [authenticate] with the new email
    and that password returns this user, while no user carries the old
    email any more and [authenticate] with it returns nothing, whatever the
    password. *)
Theorem update_member_email_renames_user
    (s s' : Store) (id : Z) (nm em pw : string)
    (mtype : option string) (expiry : option sqlval)
    (m : Member) (u : User) (v : pyval) :
  get_member s id = Returns (Some m) ->
  email m <> EmptyString ->
  email m <> em ->
  get_user_by_username s (email m) = Some u ->
  update_member s id nm em pw mtype expiry = (Returns (true, v), s') ->
  get_member s' id = Returns (Some (mkMember (mid m) nm em pw mtype expiry))
  /\ authenticate s' em pw = Some (mkUser (uid u) em pw (role u))
  /\ get_user_by_username s' (email m) = None
  /\ (forall p, authenticate s' (email m) p = None).
Proof.
  intros Hm Hne Hdiff Hu. apply get_member_returns in Hm.
  destruct Hm as [Hrange Hm]. unfold update_member. rewrite Hrange, Hm. simpl.
  destruct (members_update_conflict s id em mtype); [discriminate|].
  rewrite (nonempty_true _ Hne).
  assert (E : String.eqb (email m) em = false) by (apply String.eqb_neq; exact Hdiff).
  rewrite E. simpl. unfold rename_user, users_rename_conflict. simpl.
  unfold get_user_by_username in Hu.
  assert (Hex : existsb (fun x => String.eqb (username x) (email m)) (users s) = true).
  { apply existsb_exists. exists u. apply find_some in Hu. exact Hu. }
  rewrite Hex. simpl.
  destruct (existsb (fun x => String.eqb (username x) em) (users s)) eqn:Hnew;
    [discriminate|].
  intros H. injection H as _ <-.
  unfold get_member, member_row, authenticate, get_user_by_username.
  rewrite Hrange. simpl.
  split.
  { rewrite (find_map_key mid).
    - unfold member_row in Hm. rewrite Hm. simpl.
      assert (Hk := proj2 (find_key_some mid _ _ _ Hm)).
      apply Z.eqb_eq in Hk. rewrite Hk. reflexivity.
    - intros a. destruct (mid a =? id); reflexivity. }
  split; [exact (find_renamed _ _ _ _ pw u Hu Hnew)|].
  split; [exact (find_old_name_gone _ _ _ _ Hdiff)|].
  intros p. apply find_weaken. exact (find_old_name_gone _ _ _ _ Hdiff).
Qed.

Lemma update_member_email_renames_user_witness :
  exists s',
    update_member dune_store 1 "A" "c@d.org" "pw2" None None
    = (Returns (true, PyNone), s')
    /\ get_member s' 1 = Returns (Some (mkMember 1 "A" "c@d.org" "pw2" None None))
    /\ authenticate s' "c@d.org" "pw2" = Some (mkUser 2 "c@d.org" "pw2" "user")
    /\ get_user_by_username s' "a@b.com" = None
    /\ (forall p, authenticate s' "a@b.com" p = None).
Proof.
  eexists. split; [reflexivity|].
  apply (update_member_email_renames_user dune_store _ 1 "A" "c@d.org" "pw2"
           None None (mkMember 1 "A" "a@b.com" "pw" None None)
           (mkUser 2 "a@b.com" "pw" "user") PyNone).
  - reflexivity.
  - discriminate.
  - discriminate.
  - reflexivity.
  - reflexivity.
Defined.

(** Counterexample to C8 as stated, a member whose email is the empty string: the
    update succeeds, the mirrored user keeps its empty username and its old
    password, and the new email logs nobody in. *)
Lemma update_member_blank_email_counterexample :
  get_member blank_email_store 1
  = Returns (Some (mkMember 1 "B" "" "pw" None None))
  /\ get_user_by_username blank_email_store "" = Some (mkUser 2 "" "pw" "user")
  /\ exists s',
       update_member blank_email_store 1 "B" "b@c.org" "pw2" None None
       = (Returns (true, PyNone), s')
       /\ authenticate s' "b@c.org" "pw2" = None
       /\ get_user_by_username s' "" = Some (mkUser 2 "" "pw" "user").
Proof.
  split; [reflexivity|]. split; [reflexivity|].
  eexists. split; [reflexivity|]. split; reflexivity.
Qed.


(** ** LIKE and substrings *)

Lemma append_empty_r (a : string) : (a ++ "")%string = a.
Proof.
  induction a as [|x a IH]; simpl; [reflexivity | rewrite IH; reflexivity].
Qed.

Lemma lower_app (a b : string) :
  lower (a ++ b) = (lower a ++ lower b)%string.
Proof.
  induction a as [|x a IH]; simpl; [reflexivity | rewrite IH; reflexivity].
Qed.

Lemma lower_app_inv (t a b : string) :
  lower t = (a ++ b)%string ->
  exists t1 t2, t = (t1 ++ t2)%string /\ lower t1 = a /\ lower t2 = b.
Proof.
  revert t. induction a as [|x a IH]; intros t H.
  - exists EmptyString, t. simpl in *. auto.
  - destruct t as [|c t]; simpl in H; [discriminate|].
    injection H as Hc Ht. destruct (IH t Ht) as [t1 [t2 [-> [H1 H2]]]].
    exists (String c t1), t2. simpl. rewrite H1, Hc. auto.
Qed.

Lemma like_percent_unfold (p t : string) :
  patternCompare (String "%" p) t
  = patternCompare p t
    || match t with
       | EmptyString => false
       | String _ t' => patternCompare (String "%" p) t'
       end.
Proof. destruct t; reflexivity. Qed.

(** A leading [%] lets the rest of the pattern start anywhere. *)
Lemma like_percent (p t : string) :
  patternCompare (String "%" p) t = true
  <-> exists pre post, t = (pre ++ post)%string /\ patternCompare p post = true.
Proof.
  induction t as [|c t IH]; rewrite like_percent_unfold.
  - split.
    + intros H. rewrite orb_false_r in H. exists EmptyString, EmptyString. auto.
    + intros [pre [post [E H]]]. destruct pre; [|discriminate].
      simpl in E. subst post. rewrite H. reflexivity.
  - split.
    + intros H. apply orb_prop in H. destruct H as [H | H].
      * exists EmptyString, (String c t). auto.
      * apply IH in H. destruct H as [pre [post [-> H]]].
        exists (String c pre), post. auto.
    + intros [pre [post [E H]]]. destruct pre as [|d pre]; simpl in E.
      * subst post. rewrite H. reflexivity.
      * injection E as -> ->. apply orb_true_intro. right.
        apply IH. exists pre, post. auto.
Qed.

(** A run of ordinary characters matches a run of the same length that is
    equal to it up to ASCII case. *)
Lemma like_literal (q r t : string) :
  no_wildcard q = true ->
  patternCompare (q ++ r) t = true
  <-> exists t1 t2, t = (t1 ++ t2)%string /\ lower t1 = lower q /\ patternCompare r t2 = true.
Proof.
  revert t. induction q as [|c q IH]; intros t Hq.
  - simpl. split.
    + intros H. exists EmptyString, t. auto.
    + intros [t1 [t2 [-> [H1 H2]]]]. destruct t1; [exact H2 | discriminate].
  - simpl in Hq. apply andb_prop in Hq. destruct Hq as [Hc Hq].
    apply andb_prop in Hc. destruct Hc as [Hc1 Hc2].
    apply negb_true_iff in Hc1. apply negb_true_iff in Hc2.
    simpl. rewrite Hc1, Hc2. destruct t as [|d t].
    + split; [discriminate|].
      intros [t1 [t2 [E [H1 _]]]]. destruct t1; simpl in *; discriminate.
    + split.
      * intros H. apply andb_prop in H. destruct H as [Hcd H].
        apply Ascii.eqb_eq in Hcd.
        apply (IH t Hq) in H. destruct H as [t1 [t2 [-> [H1 H2]]]].
        exists (String d t1), t2. simpl. rewrite H1, Hcd. auto.
      * intros [t1 [t2 [E [H1 H2]]]]. destruct t1 as [|e t1]; simpl in *;
          [discriminate|].
        injection E as -> ->. injection H1 as He H1.
        rewrite He, Ascii.eqb_refl. simpl.
        apply (IH _ Hq). exists t1, t2. auto.
Qed.

Lemma like_percent_all (t : string) : patternCompare "%" t = true.
Proof.
  apply like_percent. exists t, EmptyString.
  rewrite append_empty_r. auto.
Qed.

(** For a term without wildcards, [%term%] is the ASCII-caseless substring
    test. *)
Lemma like_contains (q t : string) :
  no_wildcard q = true ->
  patternCompare ("%" ++ q ++ "%") t = true <-> ci_substring q t.
Proof.
  intros Hq. change ("%" ++ q ++ "%")%string with (String "%" (q ++ "%")).
  rewrite like_percent. unfold ci_substring, is_substring. split.
  - intros [pre [post [-> H]]]. apply (like_literal _ _ _ Hq) in H.
    destruct H as [t1 [t2 [-> [H1 _]]]].
    exists (lower pre), (lower t2). rewrite !lower_app, H1. reflexivity.
  - intros [pre [post H]]. apply lower_app_inv in H.
    destruct H as [tp [rest [-> [_ H]]]]. apply lower_app_inv in H.
    destruct H as [t1 [t2 [-> [H1 _]]]].
    exists tp, (t1 ++ t2)%string. split; [reflexivity|].
    apply (like_literal _ _ _ Hq). exists t1, t2.
    split; [reflexivity|]. split; [exact H1 | apply like_percent_all].
Qed.

Lemma prefix_app (x post : string) : String.prefix x (x ++ post) = true.
Proof.
  induction x as [|c x IH]; simpl; [destruct post; reflexivity|].
  destruct (ascii_dec c c); [exact IH | congruence].
Qed.

Lemma occurs_unfold (x t : string) :
  occurs x t
  = String.prefix x t
    || match t with
       | EmptyString => false
       | String _ t' => occurs x t'
       end.
Proof. destruct t; reflexivity. Qed.

Lemma occurs_complete (x t : string) : is_substring x t -> occurs x t = true.
Proof.
  intros [pre [post ->]]. induction pre as [|c pre IH]; rewrite occurs_unfold.
  - simpl. rewrite prefix_app. reflexivity.
  - simpl. rewrite IH. apply orb_true_r.
Qed.

Lemma c_str_no_nul (x : string) : no_nul x = true -> c_str x = x.
Proof.
  induction x as [|c x IH]; simpl; [reflexivity|].
  intros H. apply andb_prop in H. destruct H as [Hc Hx].
  apply negb_true_iff in Hc. rewrite Hc, (IH Hx). reflexivity.
Qed.

Lemma no_nul_app (a b : string) :
  no_nul (a ++ b) = no_nul a && no_nul b.
Proof.
  induction a as [|c a IH]; simpl; [reflexivity|].
  rewrite IH, andb_assoc. reflexivity.
Qed.

Lemma utf8_length_app (a b : string) :
  utf8_length (a ++ b) = utf8_length a + utf8_length b.
Proof.
  induction a as [|c a IH]; simpl; [reflexivity | rewrite IH; lia].
Qed.

(** The pattern that [list_books] builds around a term without NUL is read
    in full and has two bytes more than the term. *)
Lemma search_pattern (q : string) :
  no_nul q = true ->
  c_str ("%" ++ q ++ "%") = ("%" ++ q ++ "%")%string
  /\ utf8_length ("%" ++ q ++ "%") = utf8_length q + 2.
Proof.
  intros Hq. split.
  - apply c_str_no_nul.
    change ("%" ++ q ++ "%")%string with (String "%" (q ++ "%")).
    simpl. rewrite no_nul_app, Hq. reflexivity.
  - rewrite !utf8_length_app. change (utf8_length "%") with 1. lia.
Qed.

Lemma like_within_limit (p t : string) :
  utf8_length p <= SQLITE_MAX_LIKE_PATTERN_LENGTH ->
  like p t = Returns (patternCompare (c_str p) (c_str t)).
Proof.
  intros H. unfold like. apply Z.ltb_ge in H. rewrite H. reflexivity.
Qed.

Lemma select_where_total {A : Type} (p : A -> outcome bool) (f : A -> bool)
    (rows : list A) :
  (forall r, In r rows -> p r = Returns (f r)) ->
  select_where p rows = Returns (filter f rows).
Proof.
  induction rows as [|r rows IH]; simpl; intros H; [reflexivity|].
  rewrite (H r (or_introl eq_refl)), IH by (intros x Hx; apply H; right; exact Hx).
  destruct (f r); reflexivity.
Qed.

(** Within the length limit and without NUL in the term, [list_books] is a
    plain filter of the table. *)
Lemma list_books_filter (s : Store) (c : ascii) (q : string) :
  no_nul (String c q) = true ->
  utf8_length (String c q) + 2 <= SQLITE_MAX_LIKE_PATTERN_LENGTH ->
  list_books s (Some (String c q))
  = Returns (filter (fun b =>
               patternCompare ("%" ++ String c q ++ "%") (c_str (title b))
               || patternCompare ("%" ++ String c q ++ "%") (c_str (author b))
               || patternCompare ("%" ++ String c q ++ "%") (c_str (genre b)))
             (books s)).
Proof.
  intros Hn Hl. destruct (search_pattern _ Hn) as [Hc Hu].
  unfold list_books. apply select_where_total. intros b _.
  rewrite !like_within_limit by (rewrite Hu; exact Hl).
  rewrite Hc.
  destruct (patternCompare ("%" ++ String c q ++ "%") (c_str (title b)));
    [reflexivity|].
  destruct (patternCompare ("%" ++ String c q ++ "%") (c_str (author b)));
    reflexivity.
Qed.

(** ** Listing books *)

(** C5. Without a search term, or with the empty one, [list_books] returns
    the whole books table in table order, and [add_book] puts the new row
    at the end of that order.  With a term of at most 49998 bytes that
    contains no [%], no [_] and no NUL character, it returns, in table
    order, exactly the rows in which the term occurs in the title, the
    author or the genre, each read up to its first NUL character, when
    ASCII letters are compared without regard to case. *)
Theorem list_books_spec (s : Store) (q : string) :
  no_wildcard q = true ->
  no_nul q = true ->
  utf8_length q + 2 <= SQLITE_MAX_LIKE_PATTERN_LENGTH ->
  list_books s None = Returns (books s)
  /\ list_books s (Some EmptyString) = Returns (books s)
  /\ (forall t a g n i s',
        add_book s t a g n = (Returns i, s') ->
        books s' = books s ++ [mkBook i t a g n])
  /\ exists l,
       list_books s (Some q) = Returns l
       /\ (exists keep, l = filter keep (books s))
       /\ (forall b,
             In b l
             <-> In b (books s)
                 /\ (ci_substring q (c_str (title b))
                     \/ ci_substring q (c_str (author b))
                     \/ ci_substring q (c_str (genre b)))).
Proof.
  intros Hq Hn Hl. split; [reflexivity|]. split; [reflexivity|].
  split.
  { intros t a g n i s'. unfold add_book. destruct (in_int64 n); [|discriminate].
    intros H. injection H as <- <-. reflexivity. }
  destruct q as [|c q].
  - exists (books s). split; [reflexivity|]. split.
    + exists (fun _ => true). induction (books s) as [|b l IH]; simpl;
        [reflexivity | rewrite <- IH; reflexivity].
    + intros b. split; [|tauto]. intros H. split; [exact H|]. left.
      exists EmptyString, (lower (c_str (title b))). reflexivity.
  - eexists. split; [exact (list_books_filter s c q Hn Hl)|].
    split; [eexists; reflexivity|].
    intros b. rewrite filter_In, !orb_true_iff, !(like_contains _ _ Hq). tauto.
Qed.

Lemma list_books_spec_witness :
  list_books dune_store None = Returns (books dune_store)
  /\ list_books dune_store (Some EmptyString) = Returns (books dune_store)
  /\ (forall t a g n i s',
        add_book dune_store t a g n = (Returns i, s') ->
        books s' = books dune_store ++ [mkBook i t a g n])
  /\ exists l,
       list_books dune_store (Some "herb") = Returns l
       /\ (exists keep, l = filter keep (books dune_store))
       /\ (forall b,
             In b l
             <-> In b (books dune_store)
                 /\ (ci_substring "herb" (c_str (title b))
                     \/ ci_substring "herb" (c_str (author b))
                     \/ ci_substring "herb" (c_str (genre b)))).
Proof.
  apply (list_books_spec dune_store "herb" eq_refl eq_refl).
  vm_compute. discriminate.
Defined.

(** Counterexample to C5 as stated, on five counts.  Case and wildcards:
    the terms dune and D_n both find the book titled Dune, in none of whose
    three columns either of them occurs as written.  NUL in a column: the
    term b does not find the book whose title has b after a NUL.  NUL in
    the term: the term e-NUL finds Dune, which ends in e but does not
    contain the term.  Length: a term of 49999 bytes raises
    OperationalError. *)
Lemma list_books_case_counterexample :
  let dune := mkBook 1 "Dune" "Herbert" "Sci-Fi" 1 in
  books dune_store = [dune]
  /\ list_books dune_store (Some "dune") = Returns [dune]
  /\ ~ (is_substring "dune" (title dune) \/ is_substring "dune" (author dune)
        \/ is_substring "dune" (genre dune))
  /\ list_books dune_store (Some "D_n") = Returns [dune]
  /\ ~ (is_substring "D_n" (title dune) \/ is_substring "D_n" (author dune)
        \/ is_substring "D_n" (genre dune))
  /\ books nul_title_store = [mkBook 1 nul_title "Anon" "Misc" 1]
  /\ is_substring "b" nul_title
  /\ list_books nul_title_store (Some "b") = Returns []
  /\ list_books dune_store (Some nul_term) = Returns [dune]
  /\ ~ (is_substring nul_term (title dune) \/ is_substring nul_term (author dune)
        \/ is_substring nul_term (genre dune))
  /\ utf8_length long_term = 49999
  /\ list_books dune_store (Some long_term) = Raises OperationalError.
Proof.
  cbv zeta. split; [reflexivity|]. split; [reflexivity|]. split.
  { intros [H | [H | H]]; apply occurs_complete in H; discriminate H. }
  split; [reflexivity|]. split.
  { intros [H | [H | H]]; apply occurs_complete in H; discriminate H. }
  split; [reflexivity|]. split.
  { exists (String "a"%char (String "000"%char EmptyString)), EmptyString.
    reflexivity. }
  split; [reflexivity|]. split; [reflexivity|]. split.
  { intros [H | [H | H]]; apply occurs_complete in H; discriminate H. }
  split; vm_compute; reflexivity.
Qed.
(** ** Ordering by issue date *)

Lemma string_leb_trans (a b c : string) :
  String.leb a b = true -> String.leb b c = true -> String.leb a c = true.
Proof.
  unfold String.leb. revert b c.
  induction a as [|x a IH]; intros b c; [destruct c; reflexivity|].
  destruct b as [|y b]; simpl; [discriminate|].
  destruct c as [|z c]; simpl; [destruct (Ascii.compare x y); auto|].
  unfold Ascii.compare.
  destruct (N.compare_spec (N_of_ascii x) (N_of_ascii y)) as [Exy | Lxy | Gxy];
    [ | | discriminate].
  - rewrite Exy.
    destruct (N.compare_spec (N_of_ascii y) (N_of_ascii z)); [|reflexivity|discriminate].
    apply IH.
  - intros _.
    destruct (N.compare_spec (N_of_ascii y) (N_of_ascii z)) as [Eyz | Lyz | Gyz];
      [ | | discriminate]; intros _.
    + rewrite <- Eyz. apply N.compare_lt_iff in Lxy. rewrite Lxy. reflexivity.
    + assert (L : (N_of_ascii x < N_of_ascii z)%N) by lia.
      apply N.compare_lt_iff in L. rewrite L. reflexivity.
Qed.

Lemma issue_date_ge_trans : Relations_1.Transitive issue_date_ge.
Proof.
  intros u v w Huv Hvw. unfold issue_date_ge in *.
  exact (string_leb_trans _ _ _ Hvw Huv).
Qed.

Lemma insert_desc_perm (v : TransactionView) (l : list TransactionView) :
  Permutation (insert_desc v l) (v :: l).
Proof.
  induction l as [|w l IH]; simpl; [reflexivity|].
  destruct (String.leb _ _); [reflexivity|].
  rewrite IH. apply perm_swap.
Qed.

Lemma order_by_perm (l : list TransactionView) :
  Permutation (order_by_issue_date_desc l) l.
Proof.
  induction l as [|v l IH]; simpl; [reflexivity|].
  rewrite insert_desc_perm. constructor. exact IH.
Qed.

Lemma insert_desc_sorted (v : TransactionView) (l : list TransactionView) :
  Sorted issue_date_ge l -> Sorted issue_date_ge (insert_desc v l).
Proof.
  induction l as [|w l IH]; simpl; intros Hs.
  - repeat constructor.
  - destruct (String.leb (issue_date (tx w)) (issue_date (tx v))) eqn:E.
    + constructor; [exact Hs | constructor; exact E].
    + inversion Hs as [|? ? Hs' Hhd]; subst.
      assert (Hwv : issue_date_ge w v).
      { unfold issue_date_ge.
        destruct (String.leb_total (issue_date (tx w)) (issue_date (tx v)));
          [congruence | assumption]. }
      constructor; [exact (IH Hs')|].
      destruct l as [|y l]; simpl; [constructor; exact Hwv|].
      destruct (String.leb (issue_date (tx y)) (issue_date (tx v)));
        constructor; [exact Hwv|].
      inversion Hhd; assumption.
Qed.

Lemma order_by_sorted (l : list TransactionView) :
  StronglySorted issue_date_ge (order_by_issue_date_desc l).
Proof.
  apply Sorted_StronglySorted; [exact issue_date_ge_trans|].
  induction l as [|v l IH]; simpl; [constructor|].
  apply insert_desc_sorted. exact IH.
Qed.

(** ** The join *)

Lemma in_joined (s : Store) (v : TransactionView) :
  In v (joined s)
  <-> exists t u b,
        In t (transactions s) /\ In u (users s) /\ In b (books s)
        /\ uid u = user_id t /\ bid b = book_id t
        /\ v = mkView t (username u) (title b).
Proof.
  unfold joined. rewrite in_flat_map. split.
  - intros [t [Ht H]]. apply in_flat_map in H. destruct H as [u [Hu H]].
    destruct (user_id t =? uid u) eqn:Eu; [|contradiction].
    apply in_flat_map in H. destruct H as [b [Hb H]].
    destruct (book_id t =? bid b) eqn:Eb; [|contradiction].
    destruct H as [<- | []].
    apply Z.eqb_eq in Eu. apply Z.eqb_eq in Eb.
    exists t, u, b. repeat split; auto.
  - intros [t [u [b [Ht [Hu [Hb [Eu [Eb ->]]]]]]]].
    exists t. split; [exact Ht|]. apply in_flat_map. exists u.
    split; [exact Hu|]. rewrite <- Eu, Z.eqb_refl.
    apply in_flat_map. exists b. split; [exact Hb|].
    rewrite <- Eb, Z.eqb_refl. left. reflexivity.
Qed.

Section UniqueKey.

Context {A B : Type} (key : A -> Z).

Lemma flat_map_no_key (k : Z) (f : A -> list B) (l : list A) :
  (forall a, In a l -> key a <> k) ->
  flat_map (fun a => if k =? key a then f a else []) l = [].
Proof.
  induction l as [|a l IH]; simpl; intros H; [reflexivity|].
  assert (E : (k =? key a) = false).
  { apply Z.eqb_neq. intros Hk. apply (H a); [left; reflexivity | auto]. }
  rewrite E. apply IH. intros b Hb. apply H. right. exact Hb.
Qed.

Lemma flat_map_unique_key (k : Z) (f : A -> list B) (l : list A) :
  NoDup (map key l) ->
  flat_map (fun a => if k =? key a then f a else []) l
  = match find (fun a => key a =? k) l with
    | Some a => f a
    | None => []
    end.
Proof.
  induction l as [|a l IH]; simpl; intros Hnd; [reflexivity|].
  inversion Hnd as [|? ? Hnotin Hnd']; subst.
  rewrite (Z.eqb_sym (key a) k). destruct (k =? key a) eqn:E.
  - apply Z.eqb_eq in E. rewrite flat_map_no_key; [apply app_nil_r|].
    intros b Hb Hk. apply Hnotin. rewrite <- E, <- Hk. apply in_map. exact Hb.
  - simpl. exact (IH Hnd').
Qed.

Lemma existsb_no_key (k : Z) (q : A -> bool) (l : list A) :
  (forall a, In a l -> key a <> k) ->
  existsb (fun a => (k =? key a) && q a) l = false.
Proof.
  induction l as [|a l IH]; simpl; intros H; [reflexivity|].
  assert (E : (k =? key a) = false).
  { apply Z.eqb_neq. intros Hk. apply (H a); [left; reflexivity | auto]. }
  rewrite E. simpl. apply IH. intros b Hb. apply H. right. exact Hb.
Qed.

Lemma existsb_unique_key (k : Z) (q : A -> bool) (l : list A) :
  NoDup (map key l) ->
  existsb (fun a => (k =? key a) && q a) l
  = match find (fun a => key a =? k) l with
    | Some a => q a
    | None => false
    end.
Proof.
  induction l as [|a l IH]; simpl; intros Hnd; [reflexivity|].
  inversion Hnd as [|? ? Hnotin Hnd']; subst.
  rewrite (Z.eqb_sym (key a) k). destruct (k =? key a) eqn:E; simpl.
  - apply Z.eqb_eq in E. rewrite existsb_no_key; [apply orb_false_r|].
    intros b Hb Hk. apply Hnotin. rewrite <- E, <- Hk. apply in_map. exact Hb.
  - exact (IH Hnd').
Qed.

End UniqueKey.

Lemma existsb_book_key (k : Z) (l : list Book) :
  existsb (fun b => k =? bid b) l
  = match find (fun b => bid b =? k) l with
    | Some _ => true
    | None => false
    end.
Proof.
  induction l as [|b l IH]; simpl; [reflexivity|].
  rewrite (Z.eqb_sym (bid b) k). destruct (k =? bid b); [reflexivity | exact IH].
Qed.

(** With unique user and book ids every transaction contributes at most
    one row to the join, and it does so exactly when it is [joinable]. *)
Lemma joined_transactions (s : Store) (keep : string -> bool) :
  NoDup (map uid (users s)) ->
  NoDup (map bid (books s)) ->
  map tx (filter (fun v => keep (view_username v)) (joined s))
  = filter (joinable s keep) (transactions s).
Proof.
  intros Hu Hb. unfold joined, joinable.
  induction (transactions s) as [|t ts IH]; simpl; [reflexivity|].
  rewrite filter_app, map_app, IH. clear IH.
  rewrite (flat_map_unique_key uid (user_id t) _ (users s) Hu).
  rewrite (existsb_unique_key uid (user_id t)
             (fun u => keep (username u)) (users s) Hu).
  rewrite existsb_book_key.
  destruct (find (fun a => uid a =? user_id t) (users s)) as [u|]; simpl;
    [|reflexivity].
  rewrite (flat_map_unique_key bid (book_id t) _ (books s) Hb).
  destruct (find (fun b => bid b =? book_id t) (books s)) as [b|]; simpl.
  - destruct (keep (username u)); reflexivity.
  - rewrite andb_false_r. reflexivity.
Qed.

(** ** Listing transactions *)

Lemma filter_true {A : Type} (l : list A) : filter (fun _ => true) l = l.
Proof.
  induction l as [|a l IH]; simpl; [reflexivity | rewrite IH; reflexivity].
Qed.

(** C7. For a username [x] other than the empty string,
    [list_transactions] returns exactly the joined rows of the transactions
    whose user and book are both in the store and whose username is [x],
    every row carrying the username and the book title, in descending order
    of issue date; user ids and book ids being primary keys, each such
    transaction gives one row, and there is none when there is no such
    transaction.  Without the argument, and likewise with the empty string,
    it returns in that order the joined rows of all transactions whose user
    and book are both in the store. *)
Theorem list_transactions_spec (s : Store) (x : string) :
  x <> EmptyString ->
  (forall v,
     In v (list_transactions s (Some x))
     <-> exists t u b,
           In t (transactions s) /\ In u (users s) /\ In b (books s)
           /\ uid u = user_id t /\ bid b = book_id t
           /\ username u = x
           /\ v = mkView t (username u) (title b))
  /\ (NoDup (map uid (users s)) -> NoDup (map bid (books s)) ->
      Permutation (map tx (list_transactions s (Some x)))
                  (filter (joinable s (fun n => String.eqb n x)) (transactions s)))
  /\ StronglySorted issue_date_ge (list_transactions s (Some x))
  /\ list_transactions s (Some EmptyString) = list_transactions s None
  /\ (forall v,
        In v (list_transactions s None)
        <-> exists t u b,
              In t (transactions s) /\ In u (users s) /\ In b (books s)
              /\ uid u = user_id t /\ bid b = book_id t
              /\ v = mkView t (username u) (title b))
  /\ (NoDup (map uid (users s)) -> NoDup (map bid (books s)) ->
      Permutation (map tx (list_transactions s None))
                  (filter (joinable s (fun _ => true)) (transactions s)))
  /\ StronglySorted issue_date_ge (list_transactions s None).
Proof.
  intros Hx.
  assert (E : list_transactions s (Some x)
              = order_by_issue_date_desc
                  (filter (fun v => String.eqb (view_username v) x) (joined s)))
    by (destruct x; [congruence | reflexivity]).
  rewrite E. clear E. unfold list_transactions.
  split.
  { intros v. split.
    - intros H. apply (Permutation_in _ (order_by_perm _)) in H.
      apply filter_In in H. destruct H as [H Hn].
      apply in_joined in H. destruct H as [t [u [b [Ht [Hu [Hb [Eu [Eb ->]]]]]]]].
      simpl in Hn. apply String.eqb_eq in Hn.
      exists t, u, b. repeat split; auto.
    - intros [t [u [b [Ht [Hu [Hb [Eu [Eb [En ->]]]]]]]]].
      apply (Permutation_in _ (Permutation_sym (order_by_perm _))).
      apply filter_In. split.
      + apply in_joined. exists t, u, b. repeat split; auto.
      + simpl. apply String.eqb_eq. exact En. }
  split.
  { intros Hu Hb. rewrite (Permutation_map tx (order_by_perm _)).
    rewrite (joined_transactions s (fun n => String.eqb n x) Hu Hb). reflexivity. }
  split; [apply order_by_sorted|].
  split; [reflexivity|].
  split.
  { intros v. rewrite <- in_joined. split; intros H.
    - exact (Permutation_in _ (order_by_perm _) H).
    - exact (Permutation_in _ (Permutation_sym (order_by_perm _)) H). }
  split; [|apply order_by_sorted].
  intros Hu Hb. rewrite (Permutation_map tx (order_by_perm _)).
  rewrite <- (joined_transactions s (fun _ => true) Hu Hb), filter_true.
  reflexivity.
Qed.

Lemma list_transactions_spec_witness :
  (forall v,
     In v (list_transactions dune_issued (Some "a@b.com"))
     <-> exists t u b,
           In t (transactions dune_issued) /\ In u (users dune_issued)
           /\ In b (books dune_issued)
           /\ uid u = user_id t /\ bid b = book_id t
           /\ username u = "a@b.com"
           /\ v = mkView t (username u) (title b))
  /\ Permutation (map tx (list_transactions dune_issued (Some "a@b.com")))
                 [mkTransaction 1 2 1 "2026-11-03" "2026-11-17" None 0]
  /\ StronglySorted issue_date_ge (list_transactions dune_issued (Some "a@b.com"))
  /\ list_transactions dune_issued (Some EmptyString)
     = list_transactions dune_issued None
  /\ (forall v,
        In v (list_transactions dune_issued None)
        <-> exists t u b,
              In t (transactions dune_issued) /\ In u (users dune_issued)
              /\ In b (books dune_issued)
              /\ uid u = user_id t /\ bid b = book_id t
              /\ v = mkView t (username u) (title b))
  /\ Permutation (map tx (list_transactions dune_issued None))
                 [mkTransaction 1 2 1 "2026-11-03" "2026-11-17" None 0]
  /\ StronglySorted issue_date_ge (list_transactions dune_issued None).
Proof.
  assert (Hu : NoDup (map uid (users dune_issued))).
  { simpl. repeat constructor; simpl; intuition discriminate. }
  assert (Hb : NoDup (map bid (books dune_issued))).
  { simpl. repeat constructor; simpl; intuition discriminate. }
  destruct (list_transactions_spec dune_issued "a@b.com")
    as (H1 & H2 & H3 & H4 & H5 & H6 & H7); [discriminate|].
  split; [exact H1|]. split; [exact (H2 Hu Hb)|]. split; [exact H3|].
  split; [exact H4|]. split; [exact H5|]. split; [exact (H6 Hu Hb) | exact H7].
Defined.

(** Counterexample to C7 as stated, twice over: the empty username is taken
    for no username, so the rows of other users come back; and a transaction
    whose book was deleted after its return is in the table but in no
    listing. *)
Lemma list_transactions_counterexample :
  (exists v,
      In v (list_transactions dune_issued (Some EmptyString))
      /\ view_username v = "a@b.com")
  /\ transactions dune_deleted
     = [mkTransaction 1 2 1 "2026-11-03" "2026-11-17" (Some "2026-11-03") 1]
  /\ delete_book dune_returned 1 = (Returns (true, PyNone), dune_deleted)
  /\ list_transactions dune_deleted None = []
  /\ list_transactions dune_deleted (Some "a@b.com") = [].
Proof.
  split.
  - eexists. split; [left; reflexivity | reflexivity].
  - repeat split; reflexivity.
Qed.

(** * Further properties of the operations *)

Section Lookup.

Context {A : Type}.



Lemma find_none_existsb (p : A -> bool) (l : list A) :
  existsb p l = false -> find p l = None.
Proof.
  induction l as [|a l IH]; simpl; [reflexivity|].
  intros H. apply orb_false_elim in H. destruct H as [Ha Hl].
  rewrite Ha. exact (IH Hl).
Qed.

Lemma find_filter_other (key : A -> Z) (id id' : Z) (l : list A) :
  id' <> id ->
  find (fun a => key a =? id') (filter (fun a => negb (key a =? id)) l)
  = find (fun a => key a =? id') l.
Proof.
  intros Hne. induction l as [|a l IH]; simpl; [reflexivity|].
  destruct (key a =? id) eqn:E; simpl.
  - apply Z.eqb_eq in E. rewrite E.
    assert (H : (id =? id') = false) by (apply Z.eqb_neq; congruence).
    rewrite H. exact IH.
  - destruct (key a =? id'); [reflexivity | exact IH].
Qed.

Lemma find_filter_self (key : A -> Z) (id : Z) (l : list A) :
  find (fun a => key a =? id) (filter (fun a => negb (key a =? id)) l) = None.
Proof.
  induction l as [|a l IH]; simpl; [reflexivity|].
  destruct (key a =? id) eqn:E; simpl; [exact IH|].
  rewrite E. exact IH.
Qed.

Lemma map_key_absent (key : A -> Z) (id : Z) (g : A -> A) (l : list A) :
  find (fun a => key a =? id) l = None ->
  map (fun a => if key a =? id then g a else a) l = l.
Proof.
  induction l as [|a l IH]; simpl; [reflexivity|].
  destruct (key a =? id); [discriminate|].
  intros H. rewrite (IH H). reflexivity.
Qed.

End Lookup.

(** ** Users *)





(** ** Books *)




(** X4. [update_book] with an id and a count that fit in 64 bits replaces
    the four values of the book with the given id and keeps its id; on an id
    that no book has it changes nothing (no row is created); every other
    book and the other three tables are as before.  With an id or a count
    outside the 64-bit range it raises OverflowError and the store is as it
    was. *)
Theorem update_book_effect (s : Store) (id : Z) (t a g : string) (n : Z) :
  (in_int64 id = true -> in_int64 n = true ->
   exists s',
     update_book s id t a g n = (Returns tt, s')
     /\ (forall b, get_book s id = Returns (Some b) ->
         bid b = id /\ get_book s' id = Returns (Some (mkBook id t a g n)))
     /\ (get_book s id = Returns None -> s' = s)
     /\ (forall id', id' <> id -> get_book s' id' = get_book s id')
     /\ map bid (books s') = map bid (books s)
     /\ users s' = users s /\ members s' = members s
     /\ transactions s' = transactions s)
  /\ (in_int64 id = false \/ in_int64 n = false ->
      update_book s id t a g n = (Raises OverflowError, s)).
Proof.
  unfold update_book. split.
  2:{ intros [H | H]; rewrite H; [rewrite andb_false_r|]; reflexivity. }
  intros Hid Hn. rewrite Hid, Hn. simpl.
  assert (Hg : forall b : Book,
             bid (if bid b =? id then mkBook (bid b) t a g n else b) = bid b)
    by (intros b; destruct (bid b =? id); reflexivity).
  eexists. split; [reflexivity|]. unfold get_book, book_row. rewrite Hid. simpl.
  split.
  { intros b Hb. injection Hb as Hb.
    assert (Hk := proj2 (find_key_some bid _ _ _ Hb)).
    split; [exact Hk|].
    rewrite (find_map_key bid _ id _ Hg), Hb. simpl.
    rewrite Hk, Z.eqb_refl. reflexivity. }
  split.
  { intros H. injection H as H. rewrite (map_key_absent bid id _ _ H).
    unfold set_books. apply store_eta. }
  split.
  { intros id' Hne. destruct (in_int64 id'); [|reflexivity]. f_equal.
    rewrite (find_map_key bid _ id' _ Hg).
    destruct (find (fun b => bid b =? id') (books s)) as [b|] eqn:E; [|reflexivity].
    simpl. destruct (find_key_some bid _ _ _ E) as [_ Hk].
    assert (E' : (bid b =? id) = false) by (apply Z.eqb_neq; congruence).
    rewrite E'. reflexivity. }
  split; [|repeat split; reflexivity].
  rewrite map_map. apply map_ext. exact Hg.
Qed.

Lemma update_book_effect_witness :
  update_book dune_store 9 "x" "y" "z" 3 = (Returns tt, dune_store)
  /\ (exists s',
        update_book dune_store 1 "Dune" "Herbert" "SF" 3 = (Returns tt, s')
        /\ get_book s' 1 = Returns (Some (mkBook 1 "Dune" "Herbert" "SF" 3)))
  /\ update_book dune_store 9223372036854775808 "x" "y" "z" 3
     = (Raises OverflowError, dune_store)
  /\ update_book dune_store 1 "x" "y" "z" 9223372036854775808
     = (Raises OverflowError, dune_store).
Proof.
  split; [|split; [|split]].
  - destruct (proj1 (update_book_effect dune_store 9 "x" "y" "z" 3) eq_refl eq_refl)
      as [s' [H1 [_ [H3 _]]]].
    rewrite H1. rewrite (H3 eq_refl). reflexivity.
  - destruct (proj1 (update_book_effect dune_store 1 "Dune" "Herbert" "SF" 3)
                eq_refl eq_refl)
      as [s' [H1 [H2 _]]].
    exists s'. split; [exact H1|].
    exact (proj2 (H2 (mkBook 1 "Dune" "Herbert" "Sci-Fi" 1) eq_refl)).
  - exact (proj2 (update_book_effect dune_store 9223372036854775808 "x" "y" "z" 3)
             (or_introl eq_refl)).
  - exact (proj2 (update_book_effect dune_store 1 "x" "y" "z" 9223372036854775808)
             (or_intror eq_refl)).
Defined.

(** X5. When the id fits in 64 bits and no transaction with flag 0
    references it, [delete_book] answers (True, None) and afterwards no book
    has that id; every other book, all users and members, and the
    transactions table - the returned loans of the deleted book included -
    are as before.  With an id outside the 64-bit range it raises
    OverflowError and the store is as it was. *)
Theorem delete_book_effect (s : Store) (id : Z) :
  (in_int64 id = true ->
   (forall t, In t (transactions s) -> book_id t = id -> returned t <> 0) ->
   exists s',
     delete_book s id = (Returns (true, PyNone), s')
     /\ get_book s' id = Returns None
     /\ (forall b, In b (books s') <-> In b (books s) /\ bid b <> id)
     /\ (forall id', id' <> id -> get_book s' id' = get_book s id')
     /\ transactions s' = transactions s
     /\ users s' = users s /\ members s' = members s)
  /\ (in_int64 id = false -> delete_book s id = (Raises OverflowError, s)).
Proof.
  unfold delete_book. split; intros Hid; rewrite Hid; [|reflexivity].
  intros Hfree.
  destruct (0 <? count_where _ (transactions s)) eqn:E.
  - exfalso. apply count_where_pos in E. destruct E as [t [Hin Ht]].
    apply andb_prop in Ht. destruct Ht as [Hk Hr].
    apply Z.eqb_eq in Hk. apply Z.eqb_eq in Hr.
    exact (Hfree t Hin Hk Hr).
  - eexists. split; [reflexivity|]. unfold get_book, book_row. rewrite Hid. simpl.
    split; [f_equal; apply find_filter_self|].
    split.
    { intros b. rewrite filter_In, negb_true_iff, Z.eqb_neq. reflexivity. }
    split; [|repeat split; reflexivity].
    intros id' Hne. destruct (in_int64 id'); [|reflexivity]. f_equal.
    apply find_filter_other. exact Hne.
Qed.

Lemma delete_book_effect_witness :
  (exists s',
     delete_book dune_returned 1 = (Returns (true, PyNone), s')
     /\ get_book s' 1 = Returns None
     /\ (forall b, In b (books s') <-> In b (books dune_returned) /\ bid b <> 1)
     /\ (forall id', id' <> 1 -> get_book s' id' = get_book dune_returned id')
     /\ transactions s' = transactions dune_returned
     /\ users s' = users dune_returned /\ members s' = members dune_returned)
  /\ delete_book dune_returned 9223372036854775808
     = (Raises OverflowError, dune_returned).
Proof.
  split.
  - apply (proj1 (delete_book_effect dune_returned 1) eq_refl).
    intros t [<- | []] _. simpl. lia.
  - exact (proj2 (delete_book_effect dune_returned 9223372036854775808) eq_refl).
Defined.

(** ** Members *)

Section LookupPred.

Context {A : Type}.

Lemma find_map_pred (p : A -> bool) (g : A -> A) (l : list A) :
  (forall a, p (g a) = p a) ->
  find p (map g l) = option_map g (find p l).
Proof.
  intros Hg. induction l as [|a l IH]; simpl; [reflexivity|].
  rewrite Hg. destruct (p a); [reflexivity | exact IH].
Qed.

Lemma find_filter_disjoint (p q : A -> bool) (l : list A) :
  (forall a, p a = true -> q a = false) ->
  find p (filter (fun a => negb (q a)) l) = find p l.
Proof.
  intros Hpq. induction l as [|a l IH]; simpl; [reflexivity|].
  destruct (q a) eqn:Eq; simpl.
  - destruct (p a) eqn:Ep; [|exact IH].
    rewrite (Hpq a Ep) in Eq. discriminate.
  - destruct (p a); [reflexivity | exact IH].
Qed.

Lemma find_filter_same (p : A -> bool) (l : list A) :
  find p (filter (fun a => negb (p a)) l) = None.
Proof.
  induction l as [|a l IH]; simpl; [reflexivity|].
  destruct (p a) eqn:E; simpl; [exact IH|]. rewrite E. exact IH.
Qed.

End LookupPred.

Lemma get_member_eq (s s' : Store) (id id' : Z) :
  member_row s' id' = member_row s id -> in_int64 id' = in_int64 id ->
  get_member s' id' = get_member s id.
Proof.
  intros H H'. unfold get_member. rewrite H, H'. reflexivity.
Qed.







Lemma resync_lookup (l : list User) (em pw n : string) :
  find (fun u => String.eqb (username u) n)
       (map (fun u => if String.eqb (username u) em
                      then mkUser (uid u) (username u) pw (role u) else u) l)
  = option_map (fun u => if String.eqb (username u) em
                         then mkUser (uid u) (username u) pw (role u) else u)
               (find (fun u => String.eqb (username u) n) l).
Proof.
  apply find_map_pred. intros u.
  destruct (String.eqb (username u) em); reflexivity.
Qed.

Lemma resync_authenticate (l : list User) (em pw : string) (u : User) :
  find (fun x => String.eqb (username x) em) l = Some u ->
  find (fun x => String.eqb (username x) em && String.eqb (upassword x) pw)
       (map (fun x => if String.eqb (username x) em
                      then mkUser (uid x) (username x) pw (role x) else x) l)
  = Some (mkUser (uid u) (username u) pw (role u)).
Proof.
  induction l as [|a l IH]; simpl; [discriminate|].
  destruct (String.eqb (username a) em) eqn:E; simpl.
  - intros H. injection H as <-. rewrite E, String.eqb_refl. reflexivity.
  - rewrite E. simpl. exact IH.
Qed.

Lemma resync_usernames (l : list User) (em pw : string) :
  map username
      (map (fun u => if String.eqb (username u) em
                     then mkUser (uid u) (username u) pw (role u) else u) l)
  = map username l.
Proof.
  rewrite map_map. apply map_ext. intros u.
  destruct (String.eqb (username u) em); reflexivity.
Qed.

(** X9. [update_member] on an id within 64 bits that no member has still
    answers (True, None): the members table is as before, but the user whose
    username equals the email passed gets the password passed, so that
    [authenticate] with that email and password now returns it.  On an id
    outside the 64-bit range it raises OverflowError and the store is as it
    was. *)
Theorem update_member_missing_id_resets_password
    (s : Store) (id : Z) (nm em pw : string) (mtype : option string)
    (expiry : option sqlval) (u : User) :
  (get_member s id = Returns None ->
   get_user_by_username s em = Some u ->
   exists s',
     update_member s id nm em pw mtype expiry = (Returns (true, PyNone), s')
     /\ members s' = members s
     /\ authenticate s' em pw = Some (mkUser (uid u) (username u) pw (role u))
     /\ map username (users s') = map username (users s)
     /\ books s' = books s /\ transactions s' = transactions s)
  /\ (in_int64 id = false ->
      update_member s id nm em pw mtype expiry = (Raises OverflowError, s)).
Proof.
  split.
  2:{ intros H. unfold update_member. rewrite H. reflexivity. }
  intros Hm Hu. apply get_member_returns in Hm. destruct Hm as [Hrange Hm].
  unfold update_member, members_update_conflict.
  rewrite Hrange, Hm. simpl. unfold member_row in Hm.
  assert (Hex : existsb (fun m => mid m =? id) (members s) = false).
  { destruct (existsb (fun m => mid m =? id) (members s)) eqn:E; [|reflexivity].
    apply existsb_exists in E. destruct E as [m [Hin Hk]].
    apply Z.eqb_eq in Hk. exfalso.
    exact (find_key_none mid id _ Hm m Hin Hk). }
  rewrite Hex. simpl. eexists. split; [reflexivity|].
  unfold authenticate. simpl.
  split; [apply (map_key_absent mid); exact Hm|].
  split; [apply resync_authenticate; exact Hu|].
  split; [apply resync_usernames|]. split; reflexivity.
Qed.

Lemma update_member_missing_id_resets_password_witness :
  (exists s',
     update_member dune_store 77 "nobody" "admin" "hacked" None None
     = (Returns (true, PyNone), s')
     /\ members s' = members dune_store
     /\ authenticate s' "admin" "hacked" = Some (mkUser 1 "admin" "hacked" "admin")
     /\ map username (users s') = map username (users dune_store)
     /\ books s' = books dune_store /\ transactions s' = transactions dune_store)
  /\ update_member dune_store 9223372036854775808 "nobody" "admin" "hacked" None None
     = (Raises OverflowError, dune_store).
Proof.
  split.
  - exact (proj1 (update_member_missing_id_resets_password dune_store 77 "nobody"
                    "admin" "hacked" None None (mkUser 1 "admin" "admin" "admin"))
             eq_refl eq_refl).
  - exact (proj2 (update_member_missing_id_resets_password dune_store
                    9223372036854775808 "nobody" "admin" "hacked" None None
                    (mkUser 1 "admin" "admin" "admin"))
             eq_refl).
Defined.

(** X10. [update_member] that keeps the member's email, with an accepted
    membership type and no other member holding that email, answers
    (True, None), leaves in the member row the new name, password and type
    and the new expiry as the DATE column stores it, and gives the mirrored
    user the new password without touching any username. *)
Theorem update_member_same_email_resyncs_password
    (s : Store) (id : Z) (nm pw : string) (mtype : option string)
    (expiry : option sqlval) (m : Member) (u : User) :
  get_member s id = Returns (Some m) ->
  membership_type_check mtype = true ->
  (forall m', In m' (members s) -> email m' = email m -> mid m' = id) ->
  get_user_by_username s (email m) = Some u ->
  exists s',
    update_member s id nm (email m) pw mtype expiry = (Returns (true, PyNone), s')
    /\ get_member s' id
       = Returns (Some (mkMember (mid m) nm (email m) pw mtype expiry))
    /\ authenticate s' (email m) pw
       = Some (mkUser (uid u) (username u) pw (role u))
    /\ map username (users s') = map username (users s)
    /\ books s' = books s /\ transactions s' = transactions s.
Proof.
  intros Hm Hc Hother Hu. apply get_member_returns in Hm.
  destruct Hm as [Hrange Hm]. unfold update_member, members_update_conflict.
  rewrite Hrange, Hm, Hc. simpl.
  assert (Hno : existsb (fun m' => negb (mid m' =? id)
                                   && String.eqb (email m') (email m)) (members s)
                = false).
  { destruct (existsb _ (members s)) eqn:E; [|reflexivity].
    apply existsb_exists in E. destruct E as [m' [Hin H]].
    apply andb_prop in H. destruct H as [Hid He].
    apply String.eqb_eq in He. apply negb_true_iff, Z.eqb_neq in Hid.
    exfalso. exact (Hid (Hother m' Hin He)). }
  rewrite Hno, andb_false_r. rewrite String.eqb_refl, andb_false_r.
  eexists. split; [reflexivity|].
  unfold get_member, member_row, authenticate. rewrite Hrange. simpl.
  split.
  { rewrite (find_map_key mid).
    - unfold member_row in Hm. rewrite Hm. simpl.
      assert (Hk := proj2 (find_key_some mid _ _ _ Hm)).
      apply Z.eqb_eq in Hk. rewrite Hk. reflexivity.
    - intros a. destruct (mid a =? id); reflexivity. }
  split; [apply resync_authenticate; exact Hu|].
  split; [apply resync_usernames|]. split; reflexivity.
Qed.

Lemma update_member_same_email_resyncs_password_witness :
  exists s',
    update_member dune_store 1 "Ann" "a@b.com" "new" (Some "premium")
                  (Some (SqlText "2027-01-31"))
    = (Returns (true, PyNone), s')
    /\ get_member s' 1
       = Returns (Some (mkMember 1 "Ann" "a@b.com" "new" (Some "premium")
                                 (Some (SqlText "2027-01-31"))))
    /\ authenticate s' "a@b.com" "new" = Some (mkUser 2 "a@b.com" "new" "user")
    /\ map username (users s') = map username (users dune_store)
    /\ books s' = books dune_store /\ transactions s' = transactions dune_store.
Proof.
  apply (update_member_same_email_resyncs_password dune_store 1 "Ann" "new"
           (Some "premium") (Some (SqlText "2027-01-31"))
           (mkMember 1 "A" "a@b.com" "pw" None None)
           (mkUser 2 "a@b.com" "pw" "user")).
  - reflexivity.
  - reflexivity.
  - intros m' [<- | []] _. reflexivity.
  - reflexivity.
Defined.

(** X11. When a member's non-empty email is changed to a username that
    another user already holds (and no member does), [update_member] lets
    the IntegrityError of the users table escape after the member row has
    been updated and committed: the member carries the new email while the
    users table is as before, the mirrored user still under the old email. *)
Theorem update_member_rename_conflict_leaves_member_updated
    (s : Store) (id : Z) (nm em pw : string) (mtype : option string)
    (expiry : option sqlval) (m : Member) (u w : User) :
  get_member s id = Returns (Some m) ->
  email m <> EmptyString ->
  email m <> em ->
  membership_type_check mtype = true ->
  existsb (fun m' => String.eqb (email m') em) (members s) = false ->
  get_user_by_username s (email m) = Some u ->
  get_user_by_username s em = Some w ->
  exists s',
    update_member s id nm em pw mtype expiry = (Raises IntegrityError, s')
    /\ get_member s' id = Returns (Some (mkMember (mid m) nm em pw mtype expiry))
    /\ users s' = users s
    /\ get_user_by_username s' (email m) = Some u
    /\ books s' = books s /\ transactions s' = transactions s.
Proof.
  intros Hm Hne Hdiff Hc Hfree Hu Hw. apply get_member_returns in Hm.
  destruct Hm as [Hrange Hm]. unfold update_member, members_update_conflict.
  rewrite Hrange, Hm, Hc. simpl.
  assert (Hno : existsb (fun m' => negb (mid m' =? id) && String.eqb (email m') em)
                  (members s) = false).
  { destruct (existsb (fun m' => negb (mid m' =? id) && String.eqb (email m') em)
                     (members s)) eqn:E; [|reflexivity].
    apply existsb_exists in E. destruct E as [m' [Hin H]].
    apply andb_prop in H. destruct H as [_ He].
    assert (Ht : existsb (fun m' => String.eqb (email m') em) (members s) = true)
      by (apply existsb_exists; exists m'; auto).
    congruence. }
  rewrite Hno, andb_false_r. rewrite (nonempty_true _ Hne).
  assert (E : String.eqb (email m) em = false) by (apply String.eqb_neq; exact Hdiff).
  rewrite E. simpl. unfold rename_user, users_rename_conflict. simpl.
  unfold get_user_by_username in Hu, Hw.
  assert (H1 : existsb (fun x => String.eqb (username x) (email m)) (users s) = true).
  { apply existsb_exists. exists u. apply find_some in Hu. exact Hu. }
  assert (H2 : existsb (fun x => String.eqb (username x) em) (users s) = true).
  { apply existsb_exists. exists w. apply find_some in Hw. exact Hw. }
  rewrite H1, H2. simpl. eexists. split; [reflexivity|].
  unfold get_member, member_row, get_user_by_username. rewrite Hrange. simpl.
  split.
  { rewrite (find_map_key mid).
    - unfold member_row in Hm. rewrite Hm. simpl.
      assert (Hk := proj2 (find_key_some mid _ _ _ Hm)).
      apply Z.eqb_eq in Hk. rewrite Hk. reflexivity.
    - intros a. destruct (mid a =? id); reflexivity. }
  split; [reflexivity|]. split; [exact Hu|]. split; reflexivity.
Qed.

Lemma update_member_rename_conflict_leaves_member_updated_witness :
  exists s',
    update_member dune_store 1 "A" "admin" "pw" None None
    = (Raises IntegrityError, s')
    /\ get_member s' 1 = Returns (Some (mkMember 1 "A" "admin" "pw" None None))
    /\ users s' = users dune_store
    /\ get_user_by_username s' "a@b.com" = Some (mkUser 2 "a@b.com" "pw" "user")
    /\ books s' = books dune_store /\ transactions s' = transactions dune_store.
Proof.
  apply (update_member_rename_conflict_leaves_member_updated dune_store 1
           "A" "admin" "pw" None None (mkMember 1 "A" "a@b.com" "pw" None None)
           (mkUser 2 "a@b.com" "pw" "user") (mkUser 1 "admin" "admin" "admin")).
  - reflexivity.
  - discriminate.
  - discriminate.
  - reflexivity.
  - reflexivity.
  - reflexivity.
  - reflexivity.
Defined.

(** X12. [update_member] on an existing member, with a membership type the
    CHECK rejects or with an email that a member of another id holds,
    answers (False, Email already used by another member) - the same
    message for both - and returns the store as it was. *)
Theorem update_member_refused
    (s : Store) (id : Z) (nm em pw : string) (mtype : option string)
    (expiry : option sqlval) (m : Member) :
  get_member s id = Returns (Some m) ->
  membership_type_check mtype = false
  \/ (exists m', In m' (members s) /\ mid m' <> id /\ email m' = em) ->
  update_member s id nm em pw mtype expiry
  = (Returns (false, PyStr "Email already used by another member"), s).
Proof.
  intros Hm H. apply get_member_returns in Hm. destruct Hm as [Hrange Hm].
  unfold update_member, members_update_conflict. rewrite Hrange.
  unfold member_row in Hm.
  assert (Hex : existsb (fun x => mid x =? id) (members s) = true).
  { apply existsb_exists. exists m. apply find_some in Hm. exact Hm. }
  rewrite Hex. simpl. destruct H as [Hc | [m' [Hin [Hid He]]]].
  - rewrite Hc. reflexivity.
  - assert (H : existsb (fun x => negb (mid x =? id) && String.eqb (email x) em)
                  (members s) = true).
    { apply existsb_exists. exists m'. split; [exact Hin|].
      apply Z.eqb_neq in Hid. rewrite Hid, He, String.eqb_refl. reflexivity. }
    rewrite H, orb_true_r. reflexivity.
Qed.

Lemma update_member_refused_witness :
  update_member dune_store 1 "A" "a@b.com" "pw" (Some "gold") None
  = (Returns (false, PyStr "Email already used by another member"), dune_store).
Proof.
  exact (update_member_refused dune_store 1 "A" "a@b.com" "pw" (Some "gold") None
           (mkMember 1 "A" "a@b.com" "pw" None None) eq_refl (or_introl eq_refl)).
Defined.

(** X13. For an existing member whose mirrored user has no transaction with
    flag 0, [delete_member] answers (True, None); afterwards the member id
    is gone and, when the member's email is not empty, so is every user
    with that email as username - whatever the role of that user.  A member
    with an empty email leaves the users table as it was.  Other members,
    users of other names, books and transactions are as before. *)
Theorem delete_member_effect (s : Store) (id : Z) (m : Member) :
  get_member s id = Returns (Some m) ->
  (forall u t, get_user_by_username s (email m) = Some u ->
               In t (transactions s) -> user_id t = uid u -> returned t <> 0) ->
  exists s',
    delete_member s id = (Returns (true, PyNone), s')
    /\ get_member s' id = Returns None
    /\ (forall id', id' <> id -> get_member s' id' = get_member s id')
    /\ (email m <> EmptyString -> get_user_by_username s' (email m) = None)
    /\ (email m = EmptyString -> users s' = users s)
    /\ (forall n, n <> email m ->
          get_user_by_username s' n = get_user_by_username s n)
    /\ books s' = books s /\ transactions s' = transactions s.
Proof.
  intros Hm Hfree. apply get_member_returns in Hm. destruct Hm as [Hrange Hm].
  unfold delete_member. rewrite Hrange.
  assert (Hz : (0 <? member_active_issues s id) = false).
  { unfold member_active_issues. rewrite Hm.
    destruct (get_user_by_username s (email m)) as [u|] eqn:Hu; [|reflexivity].
    destruct (0 <? count_where _ (transactions s)) eqn:E; [|reflexivity].
    exfalso. apply count_where_pos in E. destruct E as [t [Hin Ht]].
    apply andb_prop in Ht. destruct Ht as [Hk Hr].
    apply Z.eqb_eq in Hk. apply Z.eqb_eq in Hr.
    exact (Hfree u t eq_refl Hin Hk Hr). }
  rewrite Hz, Hm. eexists. split; [reflexivity|].
  unfold get_user_by_username.
  destruct (email m) as [|c e] eqn:Hem; simpl.
  - split; [unfold get_member, member_row; rewrite Hrange; simpl; f_equal;
            apply find_filter_self|].
    split; [intros id' Hid; apply get_member_eq; [|reflexivity];
            apply find_filter_other; exact Hid|].
    split; [congruence|]. split; [reflexivity|].
    split; [reflexivity | split; reflexivity].
  - split; [unfold get_member, member_row; rewrite Hrange; simpl; f_equal;
            apply find_filter_self|].
    split; [intros id' Hid; apply get_member_eq; [|reflexivity];
            apply find_filter_other; exact Hid|].
    split.
    { intros _.
      exact (find_filter_same (fun u => String.eqb (username u) (String c e))
                              (users s)). }
    split; [discriminate|].
    split; [|split; reflexivity].
    intros n Hn.
    apply (find_filter_disjoint
             (fun u => String.eqb (username u) n)
             (fun u => String.eqb (username u) (String c e))).
    intros a Ha. apply String.eqb_eq in Ha. apply String.eqb_neq. congruence.
Qed.

Lemma delete_member_effect_witness :
  exists s',
    delete_member dune_returned 1 = (Returns (true, PyNone), s')
    /\ get_member s' 1 = Returns None
    /\ (forall id', id' <> 1 -> get_member s' id' = get_member dune_returned id')
    /\ ("a@b.com" <> EmptyString -> get_user_by_username s' "a@b.com" = None)
    /\ ("a@b.com" = EmptyString -> users s' = users dune_returned)
    /\ (forall n, n <> "a@b.com" ->
          get_user_by_username s' n = get_user_by_username dune_returned n)
    /\ books s' = books dune_returned
    /\ transactions s' = transactions dune_returned.
Proof.
  apply (delete_member_effect dune_returned 1
           (mkMember 1 "A" "a@b.com" "pw" None None) eq_refl).
  intros u t _ [<- | []] _. simpl. lia.
Defined.

(** ** Loans *)



(** X15. A call that answers False writes nothing: whenever [add_user],
    [add_member], [delete_book], [delete_member], [return_book],
    [update_member] or [issue_book] answers (False, message) - and whenever
    [issue_book], [return_book], [delete_book], [delete_member], [add_book]
    or [update_book] raises - the store returned is the store passed in. *)
Theorem false_answers_write_nothing (isoformat : Z -> string) (s : Store) :
  (forall uname pw r x s',
      add_user s uname pw r = ((false, x), s') -> s' = s)
  /\ (forall nm em pw mtype expiry x s',
        add_member s nm em pw mtype expiry = ((false, x), s') -> s' = s)
  /\ (forall id x s', delete_book s id = (Returns (false, x), s') -> s' = s)
  /\ (forall id x s', delete_member s id = (Returns (false, x), s') -> s' = s)
  /\ (forall today id x s',
        return_book isoformat s today id = (Returns (false, x), s') -> s' = s)
  /\ (forall id nm em pw mtype expiry x s',
        update_member s id nm em pw mtype expiry = (Returns (false, x), s') ->
        s' = s)
  /\ (forall today uname bk days x s',
        issue_book isoformat s today uname bk days = (Returns (false, x), s') ->
        s' = s)
  /\ (forall today uname bk days e s',
        issue_book isoformat s today uname bk days = (Raises e, s') -> s' = s)
  /\ (forall today id e s',
        return_book isoformat s today id = (Raises e, s') -> s' = s)
  /\ (forall id e s', delete_book s id = (Raises e, s') -> s' = s)
  /\ (forall id e s', delete_member s id = (Raises e, s') -> s' = s)
  /\ (forall t a g n e s', add_book s t a g n = (Raises e, s') -> s' = s)
  /\ (forall id t a g n e s', update_book s id t a g n = (Raises e, s') -> s' = s).
Proof.
  repeat split.
  - intros uname pw r x s'. unfold add_user.
    destruct (insert_user s uname pw r) as [[i s1]|]; intros H;
      [discriminate | injection H as _ <-; reflexivity].
  - intros nm em pw mtype expiry x s'. unfold add_member.
    destruct (existsb _ _ || negb _); intros H;
      [injection H as _ <-; reflexivity | discriminate].
  - intros id x s'. unfold delete_book.
    destruct (in_int64 id); [|discriminate].
    destruct (0 <? count_where _ _); intros H;
      [injection H as _ <-; reflexivity | discriminate].
  - intros id x s'. unfold delete_member.
    destruct (in_int64 id); [|discriminate].
    destruct (0 <? member_active_issues s id); intros H;
      [injection H as _ <-; reflexivity | discriminate].
  - intros today id x s'. unfold return_book.
    destruct (in_int64 id); [|discriminate].
    destruct (find_transaction s id) as [t|];
      [destruct (negb (returned t =? 0))|]; intros H;
      try discriminate; injection H as _ <-; reflexivity.
  - intros id nm em pw mtype expiry x s'. unfold update_member, rename_user.
    destruct (in_int64 id); [|discriminate].
    destruct (members_update_conflict s id em mtype);
      [intros H; injection H as _ <-; reflexivity|].
    destruct (option_map email (member_row s id)) as [oe|]; [|discriminate].
    destruct (nonempty oe && negb (String.eqb oe em)); [|discriminate].
    destruct (users_rename_conflict _ oe em); discriminate.
  - intros today uname bk days x s'. unfold issue_book.
    destruct (get_user_by_username s uname) as [u|];
      [|intros H; injection H as _ <-; reflexivity].
    destruct (in_int64 bk); [|discriminate].
    destruct (book_row s bk) as [b|];
      [|intros H; injection H as _ <-; reflexivity].
    destruct (available_count b <=? 0);
      [intros H; injection H as _ <-; reflexivity|].
    destruct (date_add today days); discriminate.
  - intros today uname bk days e s'. unfold issue_book.
    destruct (get_user_by_username s uname) as [u|]; [|discriminate].
    destruct (in_int64 bk); [|intros H; injection H as _ <-; reflexivity].
    destruct (book_row s bk) as [b|]; [|discriminate].
    destruct (available_count b <=? 0); [discriminate|].
    destruct (date_add today days);
      [discriminate | intros H; injection H as _ <-; reflexivity].
  - intros today id e s'. unfold return_book.
    destruct (in_int64 id); [|intros H; injection H as _ <-; reflexivity].
    destruct (find_transaction s id) as [t|];
      [destruct (negb (returned t =? 0))|]; discriminate.
  - intros id e s'. unfold delete_book.
    destruct (in_int64 id); [|intros H; injection H as _ <-; reflexivity].
    destruct (0 <? count_where _ _); discriminate.
  - intros id e s'. unfold delete_member.
    destruct (in_int64 id); [|intros H; injection H as _ <-; reflexivity].
    destruct (0 <? member_active_issues s id); discriminate.
  - intros t a g n e s'. unfold add_book.
    destruct (in_int64 n); [discriminate | intros H; injection H as _ <-; reflexivity].
  - intros id t a g n e s'. unfold update_book.
    destruct (in_int64 n && in_int64 id);
      [discriminate | intros H; injection H as _ <-; reflexivity].
Qed.

Lemma false_answers_write_nothing_witness :
  snd (delete_book dune_issued 1) = dune_issued
  /\ snd (issue_book gregorian_isoformat dune_issued sample_today "a@b.com" 1 14)
     = dune_issued.
Proof.
  pose proof (false_answers_write_nothing gregorian_isoformat dune_issued)
    as [_ [_ [Hd [_ [_ [_ [Hi _]]]]]]].
  split.
  - exact (Hd 1 (PyStr "Cannot delete book with active issues") _ eq_refl).
  - exact (Hi sample_today "a@b.com" 1 14 (PyStr "No copies available") _ eq_refl).
Defined.

(** X16. A transaction is returned once: after a [return_book] that
    answered success, [return_book] on the same id answers
    (False, Already returned) and returns the store unchanged, so the book's
    count is not raised a second time. *)
Theorem return_book_twice_refused (isoformat : Z -> string)
    (s s1 : Store) (today today' id : Z) (v : pyval) :
  return_book isoformat s today id = (Returns (true, v), s1) ->
  return_book isoformat s1 today' id
  = (Returns (false, PyStr "Already returned"), s1).
Proof.
  unfold return_book at 1.
  destruct (in_int64 id) eqn:Hr; [|discriminate].
  destruct (find_transaction s id) as [t|] eqn:Hf; [|discriminate].
  destruct (negb (returned t =? 0)); [discriminate|].
  intros H. injection H as _ <-.
  unfold return_book, find_transaction. rewrite Hr. simpl.
  rewrite (find_map_key tid).
  - unfold find_transaction in Hf. rewrite Hf. simpl.
    assert (Hk := proj2 (find_key_some tid _ _ _ Hf)).
    apply Z.eqb_eq in Hk. rewrite Hk. reflexivity.
  - intros a. destruct (tid a =? id); reflexivity.
Qed.

Lemma return_book_twice_refused_witness :
  return_book gregorian_isoformat dune_returned (sample_today + 1) 1
  = (Returns (false, PyStr "Already returned"), dune_returned).
Proof.
  exact (return_book_twice_refused gregorian_isoformat dune_issued dune_returned
           sample_today (sample_today + 1) 1 PyNone eq_refl).
Defined.

(** ** Copies on the shelf and out on loan *)

Lemma count_where_cons {A : Type} (p : A -> bool) (a : A) (l : list A) :
  count_where p (a :: l) = (if p a then 1 else 0) + count_where p l.
Proof.
  unfold count_where. simpl. destruct (p a); [|lia].
  change (List.length (a :: filter p l)) with (S (List.length (filter p l))).
  rewrite Nat2Z.inj_succ. lia.
Qed.

Lemma count_where_snoc {A : Type} (p : A -> bool) (l : list A) (x : A) :
  count_where p (l ++ [x]) = count_where p l + (if p x then 1 else 0).
Proof.
  induction l as [|a l IH]; simpl.
  - rewrite count_where_cons. unfold count_where. simpl. lia.
  - rewrite !count_where_cons, IH. lia.
Qed.

(** Marking the one transaction with a given id as returned takes one loan
    off its book and none off any other. *)
Lemma on_loan_after_return (l : list Transaction) (k id : Z) (d : string)
    (t : Transaction) :
  NoDup (map tid l) ->
  find (fun x => tid x =? k) l = Some t ->
  returned t = 0 ->
  count_where (fun x => (book_id x =? id) && (returned x =? 0))
              (map (fun x => if tid x =? k
                             then mkTransaction (tid x) (user_id x) (book_id x)
                                    (issue_date x) (due_date x) (Some d) 1
                             else x) l)
  = count_where (fun x => (book_id x =? id) && (returned x =? 0)) l
    - (if book_id t =? id then 1 else 0).
Proof.
  induction l as [|a l IH]; simpl; [discriminate|].
  intros Hnd Hf Hr. inversion Hnd as [|? ? Hnotin Hnd']; subst.
  rewrite !count_where_cons. destruct (tid a =? k) eqn:E.
  - injection Hf as ->. apply Z.eqb_eq in E.
    rewrite map_key_absent.
    + simpl. rewrite Hr, Z.eqb_refl, andb_false_r, andb_true_r. lia.
    + destruct (find (fun x => tid x =? k) l) as [y|] eqn:Hy; [|reflexivity].
      destruct (find_key_some tid _ _ _ Hy) as [Hin Hk].
      exfalso. apply Hnotin. rewrite E, <- Hk. apply in_map. exact Hin.
  - rewrite (IH Hnd' Hf Hr). lia.
Qed.

Lemma sql_decr_integer (c : Z) : c <= INT64_MAX -> sql_decr c = c - 1.
Proof.
  intros H. unfold sql_decr. apply Z.ltb_ge in H. rewrite H. reflexivity.
Qed.

Lemma sql_incr_integer (c : Z) : c <= INT64_MAX -> sql_incr c = c + 1.
Proof.
  intros H. unfold sql_incr. apply Z.ltb_ge in H. rewrite H. reflexivity.
Qed.

(** X17. Issues and returns conserve the copies of a book whose count is
    held as a 64-bit integer.  In every store whose transaction ids are
    distinct, as the primary key makes them, for every such book row, the
    copies available plus the copies out on loan (the transactions with
    flag 0 on its id) are the same after any [issue_book] and after any
    [return_book] as before the call, whatever the call answers or raises;
    the row itself stays under its id. *)
Theorem loans_conserve_stock (isoformat : Z -> string)
    (s : Store) (id : Z) (b : Book) :
  NoDup (map tid (transactions s)) ->
  get_book s id = Returns (Some b) ->
  available_count b <= INT64_MAX ->
  (forall today uname bk days,
      let s' := snd (issue_book isoformat s today uname bk days) in
      exists b', get_book s' id = Returns (Some b') /\ bid b' = bid b
                 /\ available_count b' + on_loan s' id
                    = available_count b + on_loan s id)
  /\ (forall today trans_id,
        let s' := snd (return_book isoformat s today trans_id) in
        exists b', get_book s' id = Returns (Some b') /\ bid b' = bid b
                   /\ available_count b' + on_loan s' id
                      = available_count b + on_loan s id).
Proof.
  intros Ht Hb Hint. destruct (get_book_returns _ _ _ Hb) as [Hrange Hrow].
  assert (Hid : bid b = id) by exact (proj2 (find_key_some bid _ _ _ Hrow)).
  subst id. split.
  - intros today uname bk days. simpl. unfold issue_book.
    destruct (get_user_by_username s uname) as [u|];
      [|exists b; simpl; auto].
    destruct (in_int64 bk); [|exists b; simpl; auto].
    destruct (book_row s bk) as [b0|]; [|exists b; simpl; auto].
    destruct (available_count b0 <=? 0); [exists b; simpl; auto|].
    destruct (date_add today days) as [due|]; [|exists b; simpl; auto].
    simpl. unfold get_book, book_row in *. rewrite Hrange. simpl.
    rewrite (book_row_adjust _ bk (bid b) sql_decr), Hrow. simpl.
    eexists. split; [reflexivity|].
    unfold on_loan. simpl.
    destruct (bid b =? bk) eqn:E; simpl; (split; [reflexivity|]);
      rewrite count_where_snoc; simpl; rewrite (Z.eqb_sym bk), E; simpl;
      rewrite ?(sql_decr_integer _ Hint); lia.
  - intros today trans_id. simpl. unfold return_book.
    destruct (in_int64 trans_id); [|exists b; simpl; auto].
    destruct (find_transaction s trans_id) as [t|] eqn:Hf;
      [|exists b; simpl; auto].
    destruct (returned t =? 0) eqn:Hz; simpl; [|exists b; simpl; auto].
    apply Z.eqb_eq in Hz.
    unfold get_book, book_row in *. rewrite Hrange. simpl.
    rewrite (book_row_adjust _ (book_id t) (bid b) sql_incr), Hrow. simpl.
    eexists. split; [reflexivity|].
    unfold on_loan. simpl.
    unfold find_transaction in Hf.
    destruct (bid b =? book_id t) eqn:E; simpl; (split; [reflexivity|]);
      rewrite (on_loan_after_return _ trans_id (bid b) _ t Ht Hf Hz);
      rewrite (Z.eqb_sym (book_id t)), E;
      rewrite ?(sql_incr_integer _ Hint); lia.
Qed.

Lemma loans_conserve_stock_witness :
  (exists b',
     get_book (snd (issue_book gregorian_isoformat dune_store sample_today
                               "a@b.com" 1 14)) 1 = Returns (Some b')
     /\ bid b' = 1
     /\ available_count b'
        + on_loan (snd (issue_book gregorian_isoformat dune_store sample_today
                                   "a@b.com" 1 14)) 1
        = 1 + on_loan dune_store 1)
  /\ (exists b',
        get_book (snd (return_book gregorian_isoformat dune_issued sample_today 1)) 1
        = Returns (Some b')
        /\ bid b' = 1
        /\ available_count b'
           + on_loan (snd (return_book gregorian_isoformat dune_issued
                                       sample_today 1)) 1
           = 0 + on_loan dune_issued 1).
Proof.
  split.
  - assert (N : NoDup (map tid (transactions dune_store))) by constructor.
    assert (C : available_count (mkBook 1 "Dune" "Herbert" "Sci-Fi" 1) <= INT64_MAX)
      by (vm_compute; discriminate).
    exact (proj1 (loans_conserve_stock gregorian_isoformat dune_store 1
                    (mkBook 1 "Dune" "Herbert" "Sci-Fi" 1) N eq_refl C)
             sample_today "a@b.com" 1 14).
  - assert (N : NoDup (map tid (transactions dune_issued))).
    { simpl. repeat constructor. simpl. tauto. }
    assert (C : available_count (mkBook 1 "Dune" "Herbert" "Sci-Fi" 0) <= INT64_MAX)
      by (vm_compute; discriminate).
    exact (proj2 (loans_conserve_stock gregorian_isoformat dune_issued 1
                    (mkBook 1 "Dune" "Herbert" "Sci-Fi" 0) N eq_refl C)
             sample_today 1).
Defined.

(** ** Listings after a change *)

Lemma in_list_transactions (s : Store) (q : option string) (v : TransactionView) :
  In v (list_transactions s q) -> In v (joined s).
Proof.
  unfold list_transactions. destruct q as [[|c x]|]; intros H;
    apply (Permutation_in _ (order_by_perm _)) in H; try exact H.
  apply filter_In in H. exact (proj1 H).
Qed.

(** X18. A loan just issued is on the lists: after an [issue_book] that
    answered success for a non-empty username, both the listing for that
    username and the unfiltered listing contain the row of the new
    transaction - not returned, with no return date - joined with that
    username and the book's title. *)
Theorem issued_loan_is_listed (isoformat : Z -> string)
    (s s' : Store) (today : Z) (uname : string) (bk days : Z) (v : pyval) :
  issue_book isoformat s today uname bk days = (Returns (true, v), s') ->
  uname <> EmptyString ->
  exists t b,
    get_book s bk = Returns (Some b)
    /\ transactions s' = transactions s ++ [t]
    /\ book_id t = bk /\ returned t = 0 /\ return_date t = None
    /\ issue_date t = isoformat today
    /\ In (mkView t uname (title b)) (list_transactions s' (Some uname))
    /\ In (mkView t uname (title b)) (list_transactions s' None).
Proof.
  unfold issue_book.
  destruct (get_user_by_username s uname) as [u|] eqn:Hu; [|discriminate].
  destruct (in_int64 bk) eqn:Hr; [|discriminate].
  destruct (book_row s bk) as [b|] eqn:Hb; [|discriminate].
  destruct (available_count b <=? 0); [discriminate|].
  destruct (date_add today days) as [due|]; [|discriminate].
  intros H Hne. injection H as _ <-.
  set (t := mkTransaction (new_rowid tid (transactions_seq s) (transactions s))
                          (uid u) bk (isoformat today) (isoformat due) None 0).
  exists t, b.
  split; [unfold get_book; rewrite Hr, Hb; reflexivity|]. split; [reflexivity|].
  split; [reflexivity|]. split; [reflexivity|]. split; [reflexivity|].
  split; [reflexivity|]. unfold book_row in Hb.
  destruct (find_some _ _ Hu) as [Huin Hun]. apply String.eqb_eq in Hun.
  destruct (find_key_some bid _ _ _ Hb) as [Hbin Hbid].
  match goal with
  | |- In _ (list_transactions ?st _) /\ _ =>
      assert (Hj : In (mkView t uname (title b)) (joined st))
  end.
  { apply in_joined.
    exists t, u, (if bid b =? bk
                  then mkBook (bid b) (title b) (author b) (genre b)
                              (sql_decr (available_count b))
                  else b).
    simpl. split; [apply in_or_app; right; left; reflexivity|].
    split; [exact Huin|].
    split; [apply (in_map (fun r => if bid r =? bk
                                    then mkBook (bid r) (title r) (author r)
                                                (genre r)
                                                (sql_decr (available_count r))
                                    else r)); exact Hbin|].
    split; [reflexivity|].
    split; [destruct (bid b =? bk); exact Hbid|].
    rewrite Hun. destruct (bid b =? bk); reflexivity. }
  split.
  - destruct uname as [|c x]; [congruence|]. unfold list_transactions.
    apply (Permutation_in _ (Permutation_sym (order_by_perm _))).
    apply filter_In. split; [exact Hj|]. apply String.eqb_eq. reflexivity.
  - unfold list_transactions.
    exact (Permutation_in _ (Permutation_sym (order_by_perm _)) Hj).
Qed.

Lemma issued_loan_is_listed_witness :
  exists t b,
    get_book dune_store 1 = Returns (Some b)
    /\ transactions dune_issued = transactions dune_store ++ [t]
    /\ book_id t = 1 /\ returned t = 0 /\ return_date t = None
    /\ issue_date t = gregorian_isoformat sample_today
    /\ In (mkView t "a@b.com" (title b)) (list_transactions dune_issued (Some "a@b.com"))
    /\ In (mkView t "a@b.com" (title b)) (list_transactions dune_issued None).
Proof.
  apply (issued_loan_is_listed gregorian_isoformat dune_store dune_issued
           sample_today "a@b.com" 1 14 PyNone eq_refl).
  discriminate.
Defined.

(** X19. Deleting a book hides its history: after a [delete_book] that
    answered success, the transactions table is as before, yet no listing,
    filtered or not, shows a row of the deleted book any more. *)
Theorem delete_book_hides_history (s s' : Store) (id : Z) (x : pyval) :
  delete_book s id = (Returns (true, x), s') ->
  transactions s' = transactions s
  /\ forall q v, In v (list_transactions s' q) -> book_id (tx v) <> id.
Proof.
  unfold delete_book. destruct (in_int64 id); [|discriminate].
  destruct (0 <? count_where _ _); [discriminate|].
  intros H. injection H as _ <-. split; [reflexivity|].
  intros q v Hin.
  apply in_list_transactions, in_joined in Hin.
  destruct Hin as [t [u [b [_ [_ [Hb [_ [Hk ->]]]]]]]]. simpl in *.
  apply filter_In in Hb. destruct Hb as [_ Hne].
  apply negb_true_iff, Z.eqb_neq in Hne. congruence.
Qed.

Lemma delete_book_hides_history_witness :
  map (fun v => book_id (tx v)) (list_transactions emma_store None) = [2; 1]
  /\ exists s',
       delete_book emma_store 1 = (Returns (true, PyNone), s')
       /\ map (fun v => book_id (tx v)) (list_transactions s' None) = [2]
       /\ map book_id (transactions s') = [1; 2]
       /\ transactions s' = transactions emma_store
       /\ forall q v, In v (list_transactions s' q) -> book_id (tx v) <> 1.
Proof.
  split; [reflexivity|]. eexists.
  split; [reflexivity|]. split; [reflexivity|]. split; [reflexivity|].
  exact (delete_book_hides_history emma_store _ 1 PyNone eq_refl).
Defined.

(** ** Searching with LIKE *)

Lemma like_self (q r t : string) :
  patternCompare r t = true -> patternCompare (q ++ r) (q ++ t) = true.
Proof.
  intros H. induction q as [|c q IH]; [exact H|].
  change (String c q ++ r)%string with (String c (q ++ r)).
  change (String c q ++ t)%string with (String c (q ++ t)).
  destruct (Ascii.eqb c "%"%char) eqn:E1.
  - apply Ascii.eqb_eq in E1. subst c. apply like_percent.
    exists (String "%" EmptyString), (q ++ t)%string. auto.
  - simpl. rewrite E1. destruct (Ascii.eqb c "_"%char); [exact IH|].
    rewrite Ascii.eqb_refl. exact IH.
Qed.

Lemma like_finds_occurrence (q t : string) :
  is_substring q t -> patternCompare ("%" ++ q ++ "%") t = true.
Proof.
  intros [pre [post ->]].
  change ("%" ++ q ++ "%")%string with (String "%" (q ++ "%")).
  apply like_percent. exists pre, (q ++ post)%string.
  split; [reflexivity|]. apply like_self, like_percent_all.
Qed.

(** X20. A search never misses a row that contains the term as typed: for
    every non-empty term of at most 49998 bytes without NUL character - [%]
    and [_] included - [list_books] returns a list, and every book in whose
    title, author or genre, each read up to its first NUL character, the
    term occurs character for character is in it. *)
Theorem list_books_finds_occurrences (s : Store) (q : string) (b : Book) :
  no_nul q = true ->
  utf8_length q + 2 <= SQLITE_MAX_LIKE_PATTERN_LENGTH ->
  In b (books s) ->
  is_substring q (c_str (title b)) \/ is_substring q (c_str (author b))
  \/ is_substring q (c_str (genre b)) ->
  exists l, list_books s (Some q) = Returns l /\ In b l.
Proof.
  intros Hn Hl Hin H. destruct q as [|c q]; [exists (books s); auto|].
  eexists. split; [exact (list_books_filter s c q Hn Hl)|].
  apply filter_In. split; [exact Hin|].
  rewrite !orb_true_iff.
  destruct H as [H | [H | H]]; apply like_finds_occurrence in H; auto.
Qed.

Lemma list_books_finds_occurrences_witness :
  exists l, list_books dune_store (Some "i-F") = Returns l
            /\ In (mkBook 1 "Dune" "Herbert" "Sci-Fi" 1) l.
Proof.
  apply (list_books_finds_occurrences dune_store "i-F").
  - reflexivity.
  - vm_compute. discriminate.
  - left. reflexivity.
  - right. right. exists "Sc", "i". reflexivity.
Defined.

(** ** Keys and names in reachable stores *)

Section IdsOk.

Context {A : Type} (key : A -> Z).

Lemma ids_ok_snoc (l : list A) (seq : Z) (x : A) :
  ids_ok key l seq ->
  key x = new_rowid key seq l ->
  ids_ok key (l ++ [x]) (key x).
Proof.
  intros [Hs Hb] Hx. split.
  - assert (Hlt : forall a, In a l -> key a < key x).
    { intros a Hin. rewrite Hx. apply new_rowid_fresh. exact Hin. }
    clear Hb Hx. induction l as [|a l IH]; simpl.
    + repeat constructor.
    + simpl in Hs. apply StronglySorted_inv in Hs. destruct Hs as [Hs Hall].
      constructor.
      * apply IH; [exact Hs|]. intros b Hb. apply Hlt. right. exact Hb.
      * rewrite map_app. apply Forall_app. split; [exact Hall|].
        constructor; [|constructor]. apply Hlt. left. reflexivity.
  - intros a Hin. apply in_app_or in Hin. destruct Hin as [Hin | [<- | []]].
    + rewrite Hx. apply (new_rowid_fresh key seq) in Hin. lia.
    + lia.
Qed.

Lemma ids_ok_filter (p : A -> bool) (l : list A) (seq : Z) :
  ids_ok key l seq -> ids_ok key (filter p l) seq.
Proof.
  intros [Hs Hb]. split.
  - clear Hb. induction l as [|a l IH]; simpl; [constructor|].
    simpl in Hs. apply StronglySorted_inv in Hs. destruct Hs as [Hs Hall].
    destruct (p a); simpl; [|exact (IH Hs)].
    constructor; [exact (IH Hs)|].
    rewrite Forall_forall in *. intros k Hk. apply Hall.
    apply in_map_iff in Hk. destruct Hk as [b [Hb Hin]].
    apply filter_In in Hin. apply in_map_iff. exists b. tauto.
  - intros a Hin. apply filter_In in Hin. apply Hb. tauto.
Qed.

Lemma ids_ok_map (g : A -> A) (l : list A) (seq : Z) :
  (forall a, key (g a) = key a) ->
  ids_ok key l seq -> ids_ok key (map g l) seq.
Proof.
  intros Hg [Hs Hb]. split.
  - rewrite (map_keys_same key g l Hg). exact Hs.
  - intros a Hin. apply in_map_iff in Hin. destruct Hin as [b [<- Hin]].
    rewrite Hg. apply Hb. exact Hin.
Qed.

Lemma ids_ok_NoDup (l : list A) (seq : Z) :
  ids_ok key l seq -> NoDup (map key l).
Proof.
  intros [Hs _]. induction (map key l) as [|k L IH]; [constructor|].
  apply StronglySorted_inv in Hs. destruct Hs as [Hs Hall].
  constructor; [|exact (IH Hs)].
  intros Hin. rewrite Forall_forall in Hall. specialize (Hall k Hin). lia.
Qed.

End IdsOk.

Section Names.

Context {A : Type} (f : A -> string).

Lemma not_in_names (n : string) (l : list A) :
  existsb (fun a => String.eqb (f a) n) l = false -> ~ In n (map f l).
Proof.
  intros H Hin. apply in_map_iff in Hin. destruct Hin as [a [Ha Hin]].
  assert (Ht : existsb (fun a => String.eqb (f a) n) l = true).
  { apply existsb_exists. exists a. split; [exact Hin|].
    apply String.eqb_eq. exact Ha. }
  congruence.
Qed.

Lemma NoDup_names_snoc (l : list A) (x : A) :
  NoDup (map f l) -> ~ In (f x) (map f l) -> NoDup (map f (l ++ [x])).
Proof.
  intros Hnd Hx. rewrite map_app. simpl.
  apply NoDup_app; [exact Hnd | repeat constructor; intros [] | ].
  intros n Hn [<- | []]. exact (Hx Hn).
Qed.

Lemma NoDup_names_filter (p : A -> bool) (l : list A) :
  NoDup (map f l) -> NoDup (map f (filter p l)).
Proof.
  induction l as [|a l IH]; simpl; intros Hnd; [constructor|].
  inversion Hnd as [|? ? Hnotin Hnd']; subst.
  destruct (p a); simpl; [|exact (IH Hnd')].
  constructor; [|exact (IH Hnd')].
  intros Hin. apply Hnotin. apply in_map_iff in Hin.
  destruct Hin as [b [Hb Hbin]]. apply filter_In in Hbin.
  apply in_map_iff. exists b. tauto.
Qed.

End Names.

Lemma NoDup_renamed (oe em : string) (L : list string) :
  NoDup L -> ~ In em L ->
  NoDup (map (fun n => if String.eqb n oe then em else n) L).
Proof.
  induction L as [|n L IH]; simpl; intros Hnd Hem; [constructor|].
  inversion Hnd as [|? ? Hnotin Hnd']; subst.
  assert (Hem' : ~ In em L) by tauto.
  constructor; [|exact (IH Hnd' Hem')].
  intros Hin. apply in_map_iff in Hin. destruct Hin as [n' [Hn' Hin]].
  destruct (String.eqb n oe) eqn:E; destruct (String.eqb n' oe) eqn:E'.
  - apply String.eqb_eq in E, E'. subst. exact (Hnotin Hin).
  - subst n'. exact (Hem' Hin).
  - apply Hem. left. congruence.
  - subst n'. exact (Hnotin Hin).
Qed.

Lemma users_renamed_names (l : list User) (oe em pw : string) :
  map username (map (fun u => if String.eqb (username u) oe
                              then mkUser (uid u) em pw (role u) else u) l)
  = map (fun n => if String.eqb n oe then em else n) (map username l).
Proof.
  rewrite !map_map. apply map_ext. intros u.
  destruct (String.eqb (username u) oe); reflexivity.
Qed.

(** Emails stay unique when the row of one id takes an email that no row of
    another id holds. *)
Lemma NoDup_emails_updated (l : list Member) (id : Z) (nm em pw : string)
    (mtype : option string) (expiry : option sqlval) :
  NoDup (map mid l) -> NoDup (map email l) ->
  (forall m, In m l -> mid m <> id -> email m <> em) ->
  NoDup (map email (map (fun m => if mid m =? id
                                  then mkMember (mid m) nm em pw mtype expiry
                                  else m) l)).
Proof.
  induction l as [|a l IH]; simpl; intros Hid Hem Hother; [constructor|].
  inversion Hid as [|? ? Hid1 Hid2]; subst.
  inversion Hem as [|? ? Hem1 Hem2]; subst.
  assert (IH' := IH Hid2 Hem2 (fun m Hin => Hother m (or_intror Hin))).
  constructor; [|exact IH'].
  intros Hin. apply in_map_iff in Hin. destruct Hin as [x [Hx Hin]].
  apply in_map_iff in Hin. destruct Hin as [y [<- Hy]].
  destruct (mid a =? id) eqn:Ea; destruct (mid y =? id) eqn:Ey; simpl in Hx.
  - apply Z.eqb_eq in Ea, Ey. apply Hid1. rewrite Ea, <- Ey.
    apply in_map. exact Hy.
  - apply Z.eqb_neq in Ey. exact (Hother y (or_intror Hy) Ey Hx).
  - apply Z.eqb_neq in Ea. apply (Hother a (or_introl eq_refl) Ea). congruence.
  - apply Hem1. rewrite <- Hx. apply in_map. exact Hy.
Qed.

Lemma keys_ok_fresh : keys_ok fresh_store.
Proof.
  constructor; simpl.
  - split; [repeat constructor|]. intros a [<- | []]. simpl. lia.
  - split; [constructor | intros a []].
  - split; [constructor | intros a []].
  - split; [constructor | intros a []].
  - constructor; [intros [] | constructor].
  - constructor.
Qed.

Lemma add_user_keys (s : Store) (uname pw r : string) :
  keys_ok s -> keys_ok (snd (add_user s uname pw r)).
Proof.
  intros Hok. pose proof Hok as [Hu Hb Hm Ht Hn He]. unfold add_user, insert_user.
  destruct (existsb (fun u => String.eqb (username u) uname) (users s)) eqn:E;
    simpl; [exact Hok|].
  destruct (negb (role_check r)); simpl; [exact Hok|].
  constructor; simpl; try assumption.
  - apply (ids_ok_snoc uid (users s) (users_seq s)
             (mkUser (new_rowid uid (users_seq s) (users s)) uname pw r));
      [exact Hu | reflexivity].
  - apply NoDup_names_snoc; [exact Hn|]. simpl. apply not_in_names. exact E.
Qed.

Lemma add_book_keys (s : Store) (t a g : string) (n : Z) :
  keys_ok s -> keys_ok (snd (add_book s t a g n)).
Proof.
  intros Hok. pose proof Hok as [Hu Hb Hm Ht Hn He]. unfold add_book.
  destruct (in_int64 n); [|exact Hok].
  constructor; simpl; try assumption.
  apply (ids_ok_snoc bid (books s) (books_seq s)
           (mkBook (new_rowid bid (books_seq s) (books s)) t a g n));
    [exact Hb | reflexivity].
Qed.

Lemma update_book_keys (s : Store) (id : Z) (t a g : string) (n : Z) :
  keys_ok s -> keys_ok (snd (update_book s id t a g n)).
Proof.
  intros Hok. pose proof Hok as [Hu Hb Hm Ht Hn He]. unfold update_book.
  destruct (in_int64 n && in_int64 id); [|exact Hok].
  constructor; simpl; try assumption.
  apply ids_ok_map; [|exact Hb].
  intros b. destruct (bid b =? id); reflexivity.
Qed.

Lemma delete_book_keys (s : Store) (id : Z) :
  keys_ok s -> keys_ok (snd (delete_book s id)).
Proof.
  intros Hok. pose proof Hok as [Hu Hb Hm Ht Hn He]. unfold delete_book.
  destruct (in_int64 id); [|exact Hok].
  destruct (0 <? count_where _ _); simpl; [exact Hok|].
  constructor; simpl; try assumption. apply ids_ok_filter. exact Hb.
Qed.

Lemma add_member_keys (s : Store) (nm em pw : string)
    (mtype : option string) (expiry : option sqlval) :
  keys_ok s -> keys_ok (snd (add_member s nm em pw mtype expiry)).
Proof.
  intros Hok. pose proof Hok as [Hu Hb Hm Ht Hn He]. unfold add_member.
  destruct (existsb (fun m => String.eqb (email m) em) (members s)) eqn:E;
    simpl; [exact Hok|].
  destruct (negb (membership_type_check mtype)); simpl; [exact Hok|].
  apply add_user_keys. constructor; simpl; try assumption.
  - apply (ids_ok_snoc mid (members s) (members_seq s)
             (mkMember (new_rowid mid (members_seq s) (members s))
                       nm em pw mtype expiry));
      [exact Hm | reflexivity].
  - apply NoDup_names_snoc; [exact He|]. simpl. apply not_in_names. exact E.
Qed.

Lemma update_member_keys (s : Store) (id : Z) (nm em pw : string)
    (mtype : option string) (expiry : option sqlval) :
  keys_ok s -> keys_ok (snd (update_member s id nm em pw mtype expiry)).
Proof.
  intros Hok. pose proof Hok as [Hu Hb Hm Ht Hn He].
  unfold update_member, members_update_conflict.
  destruct (in_int64 id); [|exact Hok].
  destruct (existsb (fun m => mid m =? id) (members s)) eqn:Eid; simpl.
  - destruct (negb (membership_type_check mtype)); simpl; [exact Hok|].
    destruct (existsb (fun m => negb (mid m =? id) && String.eqb (email m) em)
                      (members s)) eqn:Eother; simpl; [exact Hok|].
    assert (Hmem : ids_ok mid
                     (map (fun m => if mid m =? id
                                    then mkMember (mid m) nm em pw mtype expiry
                                    else m) (members s)) (members_seq s)).
    { apply ids_ok_map; [|exact Hm].
      intros m. destruct (mid m =? id); reflexivity. }
    assert (Hemails : NoDup (map email
                     (map (fun m => if mid m =? id
                                    then mkMember (mid m) nm em pw mtype expiry
                                    else m) (members s)))).
    { apply NoDup_emails_updated;
        [exact (ids_ok_NoDup mid _ _ Hm) | exact He |].
      intros m Hin Hne Hem.
      assert (Ht' : existsb (fun m => negb (mid m =? id) && String.eqb (email m) em)
                      (members s) = true).
      { apply existsb_exists. exists m. split; [exact Hin|].
        apply Z.eqb_neq in Hne. rewrite Hne, Hem, String.eqb_refl. reflexivity. }
      congruence. }
    assert (Hsync : keys_ok (resync_password
              (set_members s
                 (map (fun m => if mid m =? id
                                then mkMember (mid m) nm em pw mtype expiry
                                else m) (members s)) (members_seq s)) em pw)).
    { constructor; simpl; try assumption.
      - apply ids_ok_map; [|exact Hu].
        intros u. destruct (String.eqb (username u) em); reflexivity.
      - rewrite resync_usernames. exact Hn. }
    destruct (option_map email (member_row s id)) as [oe|]; [|exact Hsync].
    destruct (nonempty oe && negb (String.eqb oe em)) eqn:Ebr; [|exact Hsync].
    unfold rename_user, users_rename_conflict. simpl.
    destruct (existsb (fun u => String.eqb (username u) oe) (users s)) eqn:E1; simpl.
    + destruct (existsb (fun u => String.eqb (username u) em) (users s)) eqn:E2;
        simpl; constructor; simpl; try assumption.
      * apply ids_ok_map; [|exact Hu].
        intros u. destruct (String.eqb (username u) oe); reflexivity.
      * rewrite users_renamed_names. apply NoDup_renamed; [exact Hn|].
        apply not_in_names. exact E2.
    + constructor; simpl; try assumption.
      * apply ids_ok_map; [|exact Hu].
        intros u. destruct (String.eqb (username u) oe); reflexivity.
      * rewrite users_renamed_names.
        assert (Hsame : map (fun n => if String.eqb n oe then em else n)
                            (map username (users s)) = map username (users s)).
        { rewrite <- (map_id (map username (users s))) at 2.
          apply map_ext_in. intros n Hin.
          destruct (String.eqb n oe) eqn:En; [|reflexivity].
          apply String.eqb_eq in En. subst n. exfalso.
          exact (not_in_names username oe (users s) E1 Hin). }
        rewrite Hsame. exact Hn.
  - assert (Hnone : find (fun m => mid m =? id) (members s) = None)
      by (apply find_none_existsb; exact Eid).
    unfold member_row. rewrite Hnone. simpl.
    rewrite (map_key_absent mid id _ _ Hnone).
    constructor; simpl; try assumption.
    + apply ids_ok_map; [|exact Hu].
      intros u. destruct (String.eqb (username u) em); reflexivity.
    + rewrite resync_usernames. exact Hn.
Qed.

Lemma delete_member_keys (s : Store) (id : Z) :
  keys_ok s -> keys_ok (snd (delete_member s id)).
Proof.
  intros Hok. pose proof Hok as [Hu Hb Hm Ht Hn He]. unfold delete_member.
  destruct (in_int64 id); [|exact Hok].
  destruct (0 <? member_active_issues s id); simpl; [exact Hok|].
  destruct (member_row s id) as [r|]; [destruct (nonempty (email r))|];
    constructor; simpl; try assumption;
    try (apply ids_ok_filter; assumption);
    try (apply NoDup_names_filter; assumption).
Qed.

Lemma issue_book_keys (isoformat : Z -> string) (s : Store) (today : Z)
    (uname : string) (bk days : Z) :
  keys_ok s -> keys_ok (snd (issue_book isoformat s today uname bk days)).
Proof.
  intros Hok. pose proof Hok as [Hu Hb Hm Ht Hn He]. unfold issue_book.
  destruct (get_user_by_username s uname) as [u|]; [|exact Hok].
  destruct (in_int64 bk); [|exact Hok].
  destruct (book_row s bk) as [b|]; [|exact Hok].
  destruct (available_count b <=? 0); [exact Hok|].
  destruct (date_add today days) as [due|]; [|exact Hok].
  constructor; simpl; try assumption.
  - apply ids_ok_map; [|exact Hb].
    intros r. destruct (bid r =? bk); reflexivity.
  - apply (ids_ok_snoc tid (transactions s) (transactions_seq s)
             (mkTransaction (new_rowid tid (transactions_seq s) (transactions s))
                            (uid u) bk (isoformat today) (isoformat due) None 0));
      [exact Ht | reflexivity].
Qed.

Lemma return_book_keys (isoformat : Z -> string) (s : Store) (today id : Z) :
  keys_ok s -> keys_ok (snd (return_book isoformat s today id)).
Proof.
  intros Hok. pose proof Hok as [Hu Hb Hm Ht Hn He]. unfold return_book.
  destruct (in_int64 id); [|exact Hok].
  destruct (find_transaction s id) as [t|]; [|exact Hok].
  destruct (negb (returned t =? 0)); [exact Hok|].
  constructor; simpl; try assumption.
  - apply ids_ok_map; [|exact Hb].
    intros r. destruct (bid r =? book_id t); reflexivity.
  - apply ids_ok_map; [|exact Ht].
    intros x. destruct (tid x =? id); reflexivity.
Qed.

Lemma reachable_keys_ok (isoformat : Z -> string) (s : Store) :
  reachable isoformat s -> keys_ok s.
Proof.
  induction 1.
  - match goal with H : Database_init None = _ |- _ => injection H as <- end.
    exact keys_ok_fresh.
  - apply add_user_keys; assumption.
  - apply add_book_keys; assumption.
  - apply update_book_keys; assumption.
  - apply delete_book_keys; assumption.
  - apply add_member_keys; assumption.
  - apply update_member_keys; assumption.
  - apply delete_member_keys; assumption.
  - apply issue_book_keys; assumption.
  - apply return_book_keys; assumption.
Qed.

Lemma like_raises (p t : string) (e : exn) :
  like p t = Raises e -> e = OperationalError.
Proof.
  unfold like. destruct (SQLITE_MAX_LIKE_PATTERN_LENGTH <? utf8_length p);
    [|discriminate].
  intros H. injection H as <-. reflexivity.
Qed.

Lemma sql_or_raises (a b : outcome bool) (e : exn) :
  sql_or a b = Raises e -> a = Raises e \/ b = Raises e.
Proof.
  destruct a as [[|]|e']; simpl; intros H; auto; discriminate.
Qed.

(** What a SELECT with a WHERE clause returns is a filter of the table,
    and what it raises is raised by the clause on some row. *)
Lemma select_where_returns {A : Type} (p : A -> outcome bool) (rows l : list A) :
  select_where p rows = Returns l ->
  l = filter (fun x => match p x with Returns true => true | _ => false end) rows.
Proof.
  revert l. induction rows as [|r rows IH]; simpl; intros l H.
  - injection H as <-. reflexivity.
  - destruct (p r) as [k|e]; [|discriminate].
    destruct (select_where p rows) as [l'|e]; [|discriminate].
    injection H as <-. rewrite <- (IH l' eq_refl). destruct k; reflexivity.
Qed.

Lemma select_where_raises {A : Type} (p : A -> outcome bool) (rows : list A)
    (e : exn) :
  select_where p rows = Raises e -> exists r, In r rows /\ p r = Raises e.
Proof.
  induction rows as [|r rows IH]; simpl; [discriminate|].
  destruct (p r) as [k|e'] eqn:Er.
  - destruct (select_where p rows) as [l'|e']; [discriminate|].
    intros H. injection H as ->. destruct (IH eq_refl) as [x [Hx Hp]].
    exists x. auto.
  - intros H. injection H as ->. exists r. auto.
Qed.

(** X21. In every store the program can reach, each of the four tables
    holds its rows in strictly increasing id order with no id above the
    table's sequence value - so ids are unique and the id that [add_book]
    returns is above every id present - and [list_books], with or without a
    search term, returns its rows in strictly increasing id order; the only
    exception [add_book] raises is OverflowError and the only one
    [list_books] raises is OperationalError. *)
Theorem reachable_tables_in_id_order (isoformat : Z -> string) (s : Store) :
  reachable isoformat s ->
  ids_ok uid (users s) (users_seq s)
  /\ ids_ok bid (books s) (books_seq s)
  /\ ids_ok mid (members s) (members_seq s)
  /\ ids_ok tid (transactions s) (transactions_seq s)
  /\ (forall t a g n,
        match fst (add_book s t a g n) with
        | Returns i => forall b, In b (books s) -> bid b < i
        | Raises e => e = OverflowError
        end)
  /\ (forall q,
        match list_books s q with
        | Returns l => StronglySorted Z.lt (map bid l)
        | Raises e => e = OperationalError
        end).
Proof.
  intros Hr. destruct (reachable_keys_ok _ _ Hr) as [Hu Hb Hm Ht _ _].
  repeat (split; [assumption|]). split.
  - intros t a g n. unfold add_book. destruct (in_int64 n); simpl; [|reflexivity].
    intros b Hin. apply new_rowid_fresh. exact Hin.
  - intros q. destruct q as [[|c q]|]; simpl; try exact (proj1 Hb).
    match goal with |- match ?x with _ => _ end => destruct x as [l|e] eqn:E end.
    + apply select_where_returns in E. rewrite E.
      exact (proj1 (ids_ok_filter bid _ _ _ Hb)).
    + apply select_where_raises in E. destruct E as [r [_ E]].
      apply sql_or_raises in E. destruct E as [E | E];
        [apply sql_or_raises in E; destruct E as [E | E]|];
        exact (like_raises _ _ _ E).
Qed.

Lemma reachable_tables_in_id_order_witness :
  ids_ok uid (users dune_issued) (users_seq dune_issued)
  /\ ids_ok bid (books dune_issued) (books_seq dune_issued)
  /\ ids_ok mid (members dune_issued) (members_seq dune_issued)
  /\ ids_ok tid (transactions dune_issued) (transactions_seq dune_issued)
  /\ (forall t a g n,
        match fst (add_book dune_issued t a g n) with
        | Returns i => forall b, In b (books dune_issued) -> bid b < i
        | Raises e => e = OverflowError
        end)
  /\ (forall q,
        match list_books dune_issued q with
        | Returns l => StronglySorted Z.lt (map bid l)
        | Raises e => e = OperationalError
        end).
Proof.
  exact (reachable_tables_in_id_order gregorian_isoformat dune_issued
           reachable_dune_issued).
Defined.

(** X22. In every store the program can reach no two users share a
    username and no two members share an email. *)
Theorem reachable_names_unique (isoformat : Z -> string) (s : Store) :
  reachable isoformat s ->
  NoDup (map username (users s)) /\ NoDup (map email (members s)).
Proof.
  intros Hr. destruct (reachable_keys_ok _ _ Hr) as [_ _ _ _ Hn He].
  split; assumption.
Qed.

Lemma reachable_names_unique_witness :
  NoDup (map username (users dune_issued))
  /\ NoDup (map email (members dune_issued)).
Proof.
  exact (reachable_names_unique gregorian_isoformat dune_issued
           reachable_dune_issued).
Defined.

Lemma authenticate_unique (l : list User) (n p : string) :
  NoDup (map username l) ->
  find (fun u => String.eqb (username u) n && String.eqb (upassword u) p) l
  = match find (fun u => String.eqb (username u) n) l with
    | Some u => if String.eqb (upassword u) p then Some u else None
    | None => None
    end.
Proof.
  induction l as [|a l IH]; simpl; intros Hnd; [reflexivity|].
  inversion Hnd as [|? ? Hnotin Hnd']; subst.
  destruct (String.eqb (username a) n) eqn:E; simpl; [|exact (IH Hnd')].
  destruct (String.eqb (upassword a) p); [reflexivity|].
  apply find_weaken.
  destruct (find (fun u => String.eqb (username u) n) l) as [b|] eqn:Hb;
    [|reflexivity].
  apply find_some in Hb. destruct Hb as [Hin Hk].
  apply String.eqb_eq in E, Hk. exfalso. apply Hnotin.
  rewrite E, <- Hk. apply in_map. exact Hin.
Qed.

(** X23. In every store the program can reach, [authenticate] returns the
    user of the given name exactly when that user's stored password equals
    the given one character for character; with any other password, or for
    a name nobody holds, it returns nothing. *)
Theorem authenticate_exact (isoformat : Z -> string) (s : Store) (n p : string) :
  reachable isoformat s ->
  authenticate s n p
  = match get_user_by_username s n with
    | Some u => if String.eqb (upassword u) p then Some u else None
    | None => None
    end.
Proof.
  intros Hr. destruct (reachable_keys_ok _ _ Hr) as [_ _ _ _ Hn _].
  apply authenticate_unique. exact Hn.
Qed.

Lemma authenticate_exact_witness :
  authenticate dune_issued "a@b.com" "pw" = Some (mkUser 2 "a@b.com" "pw" "user")
  /\ authenticate dune_issued "a@b.com" "PW" = None
  /\ authenticate dune_issued "A@b.com" "pw" = None.
Proof.
  rewrite !(authenticate_exact gregorian_isoformat dune_issued _ _
              reachable_dune_issued).
  repeat split; reflexivity.
Defined.



(** ** The session *)

(** X25. A login through the login page with a role other than admin shows
    its user only that user's loans: the session carries a non-empty
    username for which [authenticate] succeeded, and in whatever store the
    transactions and reports pages are refreshed afterwards, every row they
    show is joined to exactly that username. *)
Theorem user_pages_show_own_loans
    (s s' : Store) (u p : string) (c : Session) (v : TransactionView) :
  on_login s None u p = Some c ->
  session_role c <> "admin" ->
  In v (page_rows s' (Some c)) ->
  session_username c = u /\ u <> EmptyString
  /\ authenticate s u p <> None
  /\ view_username v = u.
Proof.
  unfold on_login, login.
  destruct (nonempty u) eqn:Eu; simpl; [|discriminate].
  destruct (nonempty p); simpl; [|discriminate].
  destruct (authenticate s u p) as [row|] eqn:Ha; [|discriminate].
  intros H Hrole Hin. injection H as <-. simpl in *.
  apply find_some in Ha. destruct Ha as [_ Hk].
  apply andb_prop in Hk. destruct Hk as [Hk _]. apply String.eqb_eq in Hk.
  split; [exact Hk|].
  split; [intros ->; discriminate|]. split; [discriminate|].
  apply String.eqb_neq in Hrole. rewrite Hrole, Hk in Hin.
  destruct u as [|a x]; [discriminate|].
  unfold list_transactions in Hin.
  apply (Permutation_in _ (order_by_perm _)) in Hin.
  apply filter_In in Hin. destruct Hin as [_ Hv].
  apply String.eqb_eq. exact Hv.
Qed.

Lemma user_pages_show_own_loans_witness :
  on_login dune_store None "a@b.com" "pw" = Some (mkSession 2 "a@b.com" "user")
  /\ page_rows dune_issued (Some (mkSession 2 "a@b.com" "user")) <> []
  /\ forall v, In v (page_rows dune_issued (Some (mkSession 2 "a@b.com" "user"))) ->
               view_username v = "a@b.com".
Proof.
  split; [reflexivity|]. split; [discriminate|].
  intros v Hin.
  refine (proj2 (proj2 (proj2
            (user_pages_show_own_loans dune_store dune_issued "a@b.com" "pw"
               (mkSession 2 "a@b.com" "user") v eq_refl _ Hin)))).
  discriminate.
Defined.

(** ** A member can borrow *)


